(** * dspy-promptfoo: the provider and the auth helper, embedded and verified

    The development follows [src/dspy_promptfoo/provider.py] and
    [src/dspy_promptfoo/auth.py].  Python code that threads state or may
    raise lives in a state-and-exception monad over a [World]; the calls
    into the [dspy] and [cake_auth] packages are section variables, so every
    theorem holds for any behaviour of those packages. *)

From Stdlib Require Import ZArith String Ascii List.
From stdpp Require Import base gmap strings list fin_maps.

#[local] Set Warnings "-register-all".
Open Scope string_scope.

(** ** Python strings *)

Module PyStr.

(** [c.lower()] on one character; only the letters A-Z change. *)
Definition lower_char (c : ascii) : ascii :=
  let n := nat_of_ascii c in
  if (65 <=? n)%nat && (n <=? 90)%nat then ascii_of_nat (n + 32) else c.

(** [s.lower()] on ASCII text; characters outside A-Z are left as they
    are. *)
Fixpoint lower (s : string) : string :=
  match s with
  | EmptyString => EmptyString
  | String c s' => String (lower_char c) (lower s')
  end.

(** [needle in hay] on two strings: substring containment. *)
Fixpoint contains (needle hay : string) : bool :=
  if String.prefix needle hay then true
  else match hay with
       | EmptyString => false
       | String _ hay' => contains needle hay'
       end.

End PyStr.

(** ** Exceptions and effects *)

(** A raised exception: its class name and [str(e)].  Every exception of the
    model derives from [Exception]. *)
Record exn := Exn { exn_class : string; exn_str : string }.

Inductive Outcome (A : Type) : Type :=
| Ok (a : A)
| Raise (e : exn).
Arguments Ok {A} a.
Arguments Raise {A} e.

(** A computation over a state [W]: the state changes made before a raise
    stay, as in Python. *)
Definition M (W A : Type) : Type := W -> Outcome A * W.

Definition ret {W A} (a : A) : M W A := fun w => (Ok a, w).

Definition raise {W A} (e : exn) : M W A := fun w => (Raise e, w).

Definition bind {W A B} (m : M W A) (k : A -> M W B) : M W B :=
  fun w => match m w with
           | (Ok a, w') => k a w'
           | (Raise e, w') => (Raise e, w')
           end.

(** [try: body  except Exception as e: handler(e)] *)
Definition try_except {W A} (body : M W A) (handler : exn -> M W A) : M W A :=
  fun w => match body w with
           | (Ok a, w') => (Ok a, w')
           | (Raise e, w') => handler e w'
           end.

(** An external call that may raise and leaves the state alone. *)
Definition lift {W A} (o : Outcome A) : M W A := fun w => (o, w).

Notation "'do' x <- m ; k" := (bind m (fun x => k))
  (at level 10, x name, m at level 100, k at level 200).
Notation "'do' ' p <- m ; k" := (bind m (fun x => match x with p => k end))
  (at level 10, p pattern, m at level 100, k at level 200).
Notation "'run' m ; k" := (bind m (fun _ => k))
  (at level 10, m at level 100, k at level 200).

(** ** Python objects as the provider probes them *)

(** The three counters of one usage record; a missing key is [None]. *)
Record UsageData := {
  total_tokens : option Z;
  prompt_tokens : option Z;
  completion_tokens : option Z
}.

(** One entry of the usage log: something that is not a [dict], or a
    [dict] whose ["usage"] key may be missing. *)
Inductive LogEntry :=
| NotADict
| DictEntry (usage : option UsageData).

(** What the provider asks of a value it did not build itself. *)
Class PyObject (O : Type) := {
  (** [getattr(o, name)]; [None] when [hasattr(o, name)] is false *)
  py_getattr : O -> string -> option O;
  (** the mapping, when [isinstance(o, dict)] *)
  py_as_dict : O -> option (gmap string O);
  (** the text, when [o] is a [str] *)
  py_as_str : O -> option string;
  (** [str(o)] *)
  py_str : O -> string;
  (** [type(o).__name__] *)
  py_type_name : O -> string;
  (** a [str] as an object *)
  py_of_str : string -> O;
  (** [o.get_lm_usage()]: outer [None] when the accessor is absent, inner
      [None] when it returns [None] *)
  py_get_lm_usage : O -> option (option (list LogEntry))
}.

(** ** provider.py *)

Module Provider.

(** A tool of the agent kind: a callable on strings. *)
Definition Tool : Type := string -> string.

(** The default tool the [react] branch supplies when none is configured. *)
Definition dummy_tool : Tool := fun x => "Processed: " +:+ x.

(** The four [dspy] module classes the provider instantiates. *)
Inductive ModuleKind :=
| Predict
| ChainOfThought
| ProgramOfThought
| ReAct (tools : list Tool).

(** The two teleprompters the provider knows, with the arguments it
    passes besides the metric. *)
Inductive Optimizer :=
| BootstrapFewShot
| BootstrapFewShotWithRandomSearch (num_candidate_programs : nat).

(** [dspy.LM(model, api_key=...)] *)
Record LM := { model : string; api_key : string }.

Section WithObjects.
Context {O : Type} `{PyObject O}.

(** An entry of [config["examples"]]: its fields, and the names under
    its ["inputs"] key when it has one. *)
Record Example := {
  ex_fields : gmap string O;
  ex_inputs : option (list string)
}.

(** An example as the teleprompters take it: [dspy.Example] built from the
    entry's fields, with the given names marked as inputs. *)
Record DspyExample := {
  store : gmap string O;
  input_keys : list string
}.

(** The configuration descriptor; [None] is a key that is not set, so
    that [config.get(key, d)] is [default d (key config)]. *)
Record Config := {
  module_type : option string;
  signature : option string;
  tools : option (list Tool);
  optimize : option bool;
  optimizer : option string;
  examples : option (list Example);
  output_field : option string;
  debug : option bool
}.

(** [options] and [context] of [call_api]. *)
Record Options := { config : option Config }.
Record CallContext := { vars : option (gmap string O) }.

(** What a [dspy.Module] instance is: a module built from a signature,
    or the result of a teleprompter. *)
Inductive Program :=
| Built (kind : ModuleKind) (sig : string)
| Compiled (teleprompter : Optimizer) (student : Program) (demos : list DspyExample).

(** A Python object holding a program.  [id] is the object's identity:
    two references are the same object iff their [id]s agree. *)
Record ModuleObj := { id : nat; program : Program }.

(** The part of the process the provider reads and writes. *)
Record World := {
  next_id : nat;                       (* identity of the next object *)
  environ : gmap string string;        (* os.environ *)
  settings : option (LM * bool);       (* dspy.settings: lm, track_usage *)
  now_isoformat : string               (* datetime.now().isoformat() *)
}.

Definition set_next_id (n : nat) (w : World) : World :=
  {| next_id := n; environ := environ w; settings := settings w;
     now_isoformat := now_isoformat w |}.

Definition set_settings (s : option (LM * bool)) (w : World) : World :=
  {| next_id := next_id w; environ := environ w; settings := s;
     now_isoformat := now_isoformat w |}.

(** Creating an object: it takes the next identity. *)
Definition new_object (p : Program) : M World ModuleObj :=
  fun w => (Ok {| id := next_id w; program := p |},
            set_next_id (S (next_id w)) w).

(** *** The [dspy] package *)

(** [metric(gold, pred, trace=None)] as a teleprompter receives it. *)
Definition Metric : Type := DspyExample -> O -> Outcome bool.

(** The error, if any, with which a module class rejects a signature. *)
Variable dspy_init_error : ModuleKind -> string -> option exn.
(** [optimizer.compile(student, trainset=trainset)] *)
Variable dspy_compile :
  Optimizer -> Metric -> Program -> list DspyExample -> Outcome Program.
(** calling the module on keyword arguments, under the current settings *)
Variable dspy_forward :
  option (LM * bool) -> Program -> gmap string O -> Outcome O.

(** [dspy.Predict(signature)] and its siblings *)
Definition dspy_new (kind : ModuleKind) (sig : string) : M World ModuleObj :=
  match dspy_init_error kind sig with
  | Some e => raise e
  | None => new_object (Built kind sig)
  end.

(** *** class DSPyProvider *)

Record DSPyProvider := {
  lm : LM;
  compiled_modules : gmap string ModuleObj
}.

Definition set_compiled_modules (c : gmap string ModuleObj)
    (self : DSPyProvider) : DSPyProvider :=
  {| lm := lm self; compiled_modules := c |}.

(** The constructor.  [dspy.LM] and [dspy.settings.configure] are taken to
    succeed; the one raising path is the missing or empty API key. *)
Definition __init__ : M World DSPyProvider :=
  fun w =>
    let api_key := environ w !! "OPENAI_API_KEY" in
    match api_key with
    | None | Some "" =>
        raise (Exn "ValueError"
                   "OPENAI_API_KEY environment variable is required") w
    | Some api_key =>
        let lm := {| model := "openai/gpt-4o-mini"; api_key := api_key |} in
        (Ok {| lm := lm; compiled_modules := ∅ |},
         set_settings (Some (lm, true)) w)
    end.

(** The metric [_optimize_module] builds. *)
Definition metric : Metric :=
  fun gold pred =>
    match py_getattr pred "answer", store gold !! "answer" with
    | Some pred_answer, Some gold_answer =>
        match py_as_str gold_answer, py_as_str pred_answer with
        | Some g, Some p => Ok (PyStr.contains (PyStr.lower g) (PyStr.lower p))
        | _, _ =>
            Raise (Exn "AttributeError" "object has no attribute 'lower'")
        end
    | _, _ => Ok true
    end.

Definition to_dspy_example (ex : Example) : DspyExample :=
  {| store := ex_fields ex;
     input_keys := default ["question"] (ex_inputs ex) |}.

Definition _optimize_module (self : DSPyProvider) (module : ModuleObj)
    (config : Config) : M World ModuleObj :=
  let optimizer_type := default "BootstrapFewShot" (optimizer config) in
  let examples := default [] (examples config) in
  match examples with
  | [] => ret module
  | _ :: _ =>
      let trainset := map to_dspy_example examples in
      if optimizer_type =? "BootstrapFewShot" then
        do compiled <- lift (dspy_compile BootstrapFewShot metric
                               (program module) trainset);
        new_object compiled
      else if optimizer_type =? "BootstrapFewShotWithRandomSearch" then
        do compiled <- lift (dspy_compile
                               (BootstrapFewShotWithRandomSearch 3) metric
                               (program module) trainset);
        new_object compiled
      else
        ret module
  end.

Definition cache_key_of (module_type signature : string) : string :=
  module_type +:+ "_" +:+ signature.

(** The [if]/[elif] chain over [module_type]. *)
Definition create_module (module_type signature : string)
    (config : Config) : M World ModuleObj :=
  if module_type =? "predict" then dspy_new Predict signature
  else if module_type =? "chain_of_thought" then
    dspy_new ChainOfThought signature
  else if module_type =? "program_of_thought" then
    dspy_new ProgramOfThought signature
  else if module_type =? "react" then
    let tools := default [] (tools config) in
    let tools := match tools with [] => [dummy_tool] | _ => tools end in
    dspy_new (ReAct tools) signature
  else dspy_new Predict signature.

(** Returns the module and [self] after the call. *)
Definition _get_or_create_module (self : DSPyProvider) (config : Config)
    : M World (ModuleObj * DSPyProvider) :=
  let module_type := default "predict" (module_type config) in
  let signature := default "question -> answer" (signature config) in
  let cache_key := cache_key_of module_type signature in
  match compiled_modules self !! cache_key with
  | Some module => ret (module, self)
  | None =>
      do module <- create_module module_type signature config;
      do module <- (if default false (optimize config)
                    then _optimize_module self module config
                    else ret module);
      ret (module,
           set_compiled_modules
             (<[cache_key := module]> (compiled_modules self)) self)
  end.

Definition _extract_output (self : DSPyProvider) (result : O)
    (config : Config) : string :=
  let output_field := default "answer" (output_field config) in
  match py_getattr result output_field with
  | Some value => py_str value
  | None =>
      match py_as_dict result with
      | Some d =>
          match d !! output_field with
          | Some value => py_str value
          | None => py_str result
          end
      | None => py_str result
      end
  end.

(** [{}], the default of [entry.get("usage", {})] *)
Definition no_usage_data : UsageData :=
  {| total_tokens := None; prompt_tokens := None;
     completion_tokens := None |}.

(** One pass of the loop body over the three running totals. *)
Definition add_entry (acc : Z * Z * Z) (entry : LogEntry) : Z * Z * Z :=
  let '(total, prompt, completion) := acc in
  match entry with
  | DictEntry usage =>
      let usage_data := default no_usage_data usage in
      (total + default 0 (total_tokens usage_data),
       prompt + default 0 (prompt_tokens usage_data),
       completion + default 0 (completion_tokens usage_data))%Z
  | NotADict => acc
  end.

Definition _get_usage_stats (self : DSPyProvider) (result : O)
    : gmap string Z :=
  match py_get_lm_usage result with
  | Some (Some (entry :: rest)) =>
      let '(total_tokens, prompt_tokens, completion_tokens) :=
        fold_left add_entry (entry :: rest) (0, 0, 0)%Z in
      if (0 <? total_tokens)%Z then
        <["total" := total_tokens]>
          (<["prompt" := prompt_tokens]>
             (<["completion" := completion_tokens]> ∅))
      else ∅
  | _ => ∅
  end.

(** *** call_api *)

Record Metadata := {
  meta_module_type : string;
  meta_signature : string;
  optimized : bool;
  timestamp : string
}.

Record DebugInfo := { full_result : string; type_name : string }.

(** The returned mapping; [None] is a key that is not there. *)
Record Response := {
  output : string;
  tokenUsage : option (gmap string Z);
  metadata : option Metadata;
  debug_info : option DebugInfo;           (* the key "debug" *)
  error : option string
}.

(** [{}], the default of [options.get("config", {})] *)
Definition empty_config : Config :=
  {| module_type := None; signature := None; tools := None;
     optimize := None; optimizer := None; examples := None;
     output_field := None; debug := None |}.

(** The keyword arguments of the module call. *)
Definition build_kwargs (prompt : string) (vars : gmap string O)
    : gmap string O :=
  let kwargs : gmap string O := ∅ in
  if PyStr.contains "{{" prompt then
    (* for key, value in vars.items(): kwargs[key] = value *)
    fold_left (fun kwargs kv => <[kv.1 := kv.2]> kwargs)
              (map_to_list vars) kwargs
  else
    let kwargs := <["question" := py_of_str prompt]> kwargs in
    (* kwargs.update(vars) *)
    vars ∪ kwargs.

(** The first three statements of the [try] block: the provider, the
    configuration and the module. *)
Definition resolve (options : Options)
    : M World (DSPyProvider * Config * ModuleObj) :=
  do provider <- __init__;
  let config := default empty_config (config options) in
  do ' (module, provider) <- _get_or_create_module provider config;
  ret (provider, config, module).

Definition error_response (e : exn) : Response :=
  {| error := Some ("DSPy Provider Error: " +:+ exn_str e);
     output := "";
     tokenUsage := None; metadata := None; debug_info := None |}.

(** The body of the [try] block. *)
Definition call_api_try (prompt : string) (options : Options)
    (context : CallContext) : M World Response :=
  do ' (provider, config, module) <- resolve options;
  let vars := default ∅ (vars context) in
  let kwargs := build_kwargs prompt vars in
  do result <- (fun w => lift (dspy_forward (settings w) (program module)
                                 kwargs) w);
  let output := _extract_output provider result config in
  let usage := _get_usage_stats provider result in
  do now <- (fun w => ret (now_isoformat w) w);
  ret {| output := output;
         tokenUsage := if decide (usage = ∅) then None else Some usage;
         metadata := Some
           {| meta_module_type := default "predict" (module_type config);
              meta_signature :=
                default "question -> answer" (signature config);
              optimized := default false (optimize config);
              timestamp := now |};
         debug_info := if default false (debug config)
                  then Some {| full_result := py_str result;
                               type_name := py_type_name result |}
                  else None;
         error := None |}.

Definition call_api (prompt : string) (options : Options)
    (context : CallContext) : M World Response :=
  try_except (call_api_try prompt options context)
             (fun e => ret (error_response e)).

End WithObjects.

Arguments Example O : clear implicits.
Arguments DspyExample O : clear implicits.
Arguments Config O : clear implicits.
Arguments Options O : clear implicits.
Arguments CallContext O : clear implicits.
Arguments Program O : clear implicits.
Arguments ModuleObj O : clear implicits.
Arguments Metric O : clear implicits.
Arguments DSPyProvider O : clear implicits.
End Provider.

(** ** Percent-encoding *)

Module PyUrl.

(** The characters [urllib.parse.quote] never encodes: letters, digits and
    [_.-~]. *)
Definition always_safe (c : ascii) : bool :=
  let n := nat_of_ascii c in
  ((65 <=? n)%nat && (n <=? 90)%nat)
  || ((97 <=? n)%nat && (n <=? 122)%nat)
  || ((48 <=? n)%nat && (n <=? 57)%nat)
  || (n =? 95)%nat || (n =? 46)%nat || (n =? 45)%nat || (n =? 126)%nat.

(** One upper-case hexadecimal digit. *)
Definition hex_digit (n : nat) : ascii :=
  if (n <? 10)%nat then ascii_of_nat (48 + n) else ascii_of_nat (55 + n).

(** ["%XX"] for one byte. *)
Definition percent (c : ascii) : string :=
  let n := nat_of_ascii c in
  String "%" (String (hex_digit (n / 16)) (String (hex_digit (n mod 16)) "")).

(** [urllib.parse.quote(s, safe='')] on the UTF-8 bytes of [s]. *)
Fixpoint quote (s : string) : string :=
  match s with
  | EmptyString => EmptyString
  | String c s' =>
      (if always_safe c then String c EmptyString else percent c) +:+ quote s'
  end.

End PyUrl.

(** ** auth.py *)

Module Auth.

(** What [configure_promptfoo_env] hands back: [True], [False], or the
    [None] of a bare [return]. *)
Inductive PyRet :=
| PyNone
| PyBool (b : bool).

(** The part of the process the helper reads and writes. *)
Record Env := {
  environ : gmap string string;        (* os.environ *)
  stdout : list string                 (* the lines printed so far *)
}.

Definition print (line : string) : M Env unit :=
  fun w => (Ok tt, {| environ := environ w; stdout := stdout w ++ [line] |}).

(** [os.getenv(key)] and [os.getenv(key, d)] *)
Definition getenv (key : string) : M Env (option string) :=
  fun w => (Ok (environ w !! key), w).

Definition getenv_default (key d : string) : M Env string :=
  fun w => (Ok (default d (environ w !! key)), w).

(** [os.environ[key] = value] *)
Definition setenv (key value : string) : M Env unit :=
  fun w => (Ok tt, {| environ := <[key := value]> (environ w);
                      stdout := stdout w |}).

(** A line feed, for the ["\n"] of a Python literal. *)
Definition LF : string := String (ascii_of_nat 10) EmptyString.

Section WithCakeAuth.
(** *** The [cake_auth] package *)
Context {CakeAuthConfig CakeAuthClient : Type}.
(** [CakeAuthConfig.from_env()] *)
Variable from_env : gmap string string -> Outcome CakeAuthConfig.
(** [CakeAuthClient(config)] *)
Variable new_client : CakeAuthConfig -> Outcome CakeAuthClient.
(** [config.get_recommended_auth_method()] *)
Variable get_recommended_auth_method : CakeAuthConfig -> Outcome string.
(** [client.get_token()]; [None] is Python's [None] *)
Variable get_token : CakeAuthClient -> Outcome (option string).

(** *** class PromptfooAuth *)

Record PromptfooAuth := {
  base_url : string;
  app_url : string;
  auth_available : bool;
  config : option CakeAuthConfig;
  client : option CakeAuthClient
}.

Definition __init__ : M Env PromptfooAuth :=
  do base_url <- getenv_default "PROMPTFOO_REMOTE_API_BASE_URL"
                   "https://promptfoo.dev.aws.kflow.ai";
  do app_url <- getenv_default "PROMPTFOO_REMOTE_APP_BASE_URL"
                  "https://promptfoo.dev.aws.kflow.ai";
  try_except
    (do config <- (fun w => lift (from_env (environ w)) w);
     do client <- lift (new_client config);
     ret {| base_url := base_url; app_url := app_url;
            auth_available := true;
            config := Some config; client := Some client |})
    (fun e =>
       run print ("⚠️  Could not initialize Cake auth: " +:+ exn_str e);
       ret {| base_url := base_url; app_url := app_url;
              auth_available := false;
              config := None; client := None |}).

(** The four variables both success paths set. *)
Definition export_token (self : PromptfooAuth) (token : string)
    : M Env unit :=
  run setenv "PROMPTFOO_AUTH_TOKEN" token;
  run setenv "PROMPTFOO_SHARE_API_BASE_URL" (base_url self);
  run setenv "PROMPTFOO_SHARE_APP_BASE_URL" (app_url self);
  setenv "PROMPTFOO_API_HEADERS" ("Authorization: Bearer " +:+ token).

(** Calling a method on an attribute that may hold [None]. *)
Definition method_of {A B} (method : string) (o : option A)
    (call : A -> Outcome B) : M Env B :=
  match o with
  | Some a => lift (call a)
  | None => raise (Exn "AttributeError"
                     ("'NoneType' object has no attribute '"
                        +:+ method +:+ "'"))
  end.

(** The lines printed when the auth system is not available. *)
Definition unavailable_lines : list string :=
  [ "⚠️  Cake auth not available - running without authentication";
    "To enable auth, you can:";
    "  1. Set CAKE_JWT_TOKEN with a manual token";
    "  2. Set CAKE_DEX_INFERENCE_PASSWORD";
    "  3. Or configure AWS credentials for Secrets Manager" ].

(** The lines printed for an error of the browser flow. *)
Definition browser_lines : list string :=
  [ LF +:+ "Try browser authentication:";
    "  1. Run: python -m cake_auth login";
    "  2. Complete authentication in browser";
    "  3. Retry the evaluation" ].

Fixpoint print_all (lines : list string) : M Env unit :=
  match lines with
  | [] => ret tt
  | line :: rest => run print line; print_all rest
  end.

Definition configure_promptfoo_env (self : PromptfooAuth) : M Env PyRet :=
  do manual_token <- getenv "CAKE_JWT_TOKEN";
  match manual_token with
  | Some (String c t as manual_token) =>
      run print "🔑 Using manual JWT token";
      run export_token self manual_token;
      run print ("✓ Authentication configured for " +:+ base_url self);
      ret (PyBool true)
  | _ =>
      if negb (auth_available self) then
        run print_all unavailable_lines;
        ret PyNone
      else
        try_except
          (do auth_method <- method_of "get_recommended_auth_method"
                               (config self) get_recommended_auth_method;
           run print ("Using auth method: " +:+ auth_method);
           do token <- method_of "get_token" (client self) get_token;
           match token with
           | Some (String c t as token) =>
               run export_token self token;
               run print ("✓ Authentication configured for "
                            +:+ base_url self);
               ret (PyBool true)
           | _ =>
               run print
                 "⚠️  No auth token retrieved - authentication may fail";
               ret (PyBool false)
           end)
          (fun e =>
             run print ("⚠️  Authentication setup failed: " +:+ exn_str e);
             run (if PyStr.contains "browser" (PyStr.lower (exn_str e))
                  then print_all browser_lines
                  else ret tt);
             ret (PyBool false))
  end.

(** The text of [token] inside an f-string: [None] prints as "None". *)
Definition format_token (token : option string) : string :=
  default "None" token.

Definition get_auth_headers (self : PromptfooAuth)
    : M Env (gmap string string) :=
  do token <- method_of "get_token" (client self) get_token;
  ret (<["Authorization" := "Bearer " +:+ format_token token]>
         (<["Content-Type" := "application/json"]> ∅)).

(** [service_name] is [None] when the caller leaves it to its default. *)
Definition get_auth_callback_url (self : PromptfooAuth)
    (service_name : option string) : M Env string :=
  let service_name := default "promptfoo" service_name in
  do cluster_base <- getenv_default "CLUSTER_BASE_NAME" "dev.aws.kflow.ai";
  ret ("https://oauth." +:+ cluster_base +:+ "/callback?service="
         +:+ service_name).

Definition get_authenticated_url (self : PromptfooAuth) (target_url : string)
    : M Env string :=
  do cluster_base <- getenv_default "CLUSTER_BASE_NAME" "dev.aws.kflow.ai";
  let encoded_target := PyUrl.quote target_url in
  ret ("https://oauth." +:+ cluster_base +:+ "/auth?rd=" +:+ encoded_target).

End WithCakeAuth.

Arguments PromptfooAuth : clear implicits.
End Auth.

(** ** Notions the statements below use *)

Module Stated.
Import Provider.

(** The count an entry contributes under one counter: the value under
    ["usage"], [0] where a key is missing or the entry is no [dict]. *)
Definition entry_count (counter : UsageData -> option Z) (entry : LogEntry)
    : Z :=
  match entry with
  | DictEntry (Some usage_data) => default 0%Z (counter usage_data)
  | DictEntry None => 0%Z
  | NotADict => 0%Z
  end.

(** The sum of one counter across the log. *)
Definition log_sum (counter : UsageData -> option Z) (log : list LogEntry)
    : Z :=
  foldr (fun entry acc => (entry_count counter entry + acc)%Z) 0%Z log.

(** The three-key mapping of usage totals. *)
Definition usage_mapping (total prompt completion : Z) : gmap string Z :=
  <["total" := total]>
    (<["prompt" := prompt]> (<["completion" := completion]> ∅)).

(** The module kinds the provider tells apart. *)
Definition recognized_kinds : list string :=
  ["predict"; "chain_of_thought"; "program_of_thought"; "react"].


(** The correctness metric read off the configured output field: whether
    the expected value of [field], lower-cased, occurs in the produced
    value of [field], lower-cased.  [None] where a value is missing or
    is not text. *)
Definition metric_on_output_field {O} `{PyObject O} (field : string)
    (gold : DspyExample O) (pred : O) : option bool :=
  match store gold !! field, py_getattr pred field with
  | Some expected, Some produced =>
      match py_as_str expected, py_as_str produced with
      | Some e, Some p => Some (PyStr.contains (PyStr.lower e) (PyStr.lower p))
      | _, _ => None
      end
  | _, _ => None
  end.

(** A descriptor that sets [module_type] and [signature] and nothing else. *)
Definition config_with {O} (module_type signature : option string)
    : Config O :=
  {| module_type := module_type; signature := signature; tools := None;
     optimize := None; optimizer := None; examples := None;
     output_field := None; debug := None |}.

(** The environment after printing [lines]. *)
Definition printed (lines : list string) (env : Auth.Env) : Auth.Env :=
  {| Auth.environ := Auth.environ env;
     Auth.stdout := Auth.stdout env ++ lines |}.

(** No usable manual token: [CAKE_JWT_TOKEN] is unset or empty. *)
Definition no_manual_token (env : Auth.Env) : Prop :=
  Auth.environ env !! "CAKE_JWT_TOKEN" = None \/
  Auth.environ env !! "CAKE_JWT_TOKEN" = Some "".

(** The lines printed for an exception during setup. *)
Definition failure_lines (e : exn) : list string :=
  ("⚠️  Authentication setup failed: " +:+ exn_str e)
    :: (if PyStr.contains "browser" (PyStr.lower (exn_str e))
        then Auth.browser_lines else []).

End Stated.

(** ** Concrete objects and packages

    A small universe of Python values and fixed behaviours of the two
    packages, on which the definitions above can be run. *)

Module Fixture.
Import Provider.

Inductive Obj :=
| Str (s : string)
| Dict (items : list (string * Obj))
| Prediction (fields : list (string * Obj))
             (lm_usage : option (list LogEntry))
| Plain (type_name repr : string).

Fixpoint assoc (name : string) (fields : list (string * Obj)) : option Obj :=
  match fields with
  | [] => None
  | (k, v) :: rest => if k =? name then Some v else assoc name rest
  end.

#[export] Instance Obj_PyObject : PyObject Obj := {|
  py_getattr o name :=
    match o with Prediction fields _ => assoc name fields | _ => None end;
  py_as_dict o :=
    match o with Dict items => Some (list_to_map items) | _ => None end;
  py_as_str o := match o with Str s => Some s | _ => None end;
  py_str o :=
    match o with
    | Str s => s
    | Dict _ => "{...}"
    | Prediction _ _ => "Prediction(...)"
    | Plain _ repr => repr
    end;
  py_type_name o :=
    match o with
    | Str _ => "str"
    | Dict _ => "dict"
    | Prediction _ _ => "Prediction"
    | Plain type_name _ => type_name
    end;
  py_of_str := Str;
  py_get_lm_usage o :=
    match o with Prediction _ lm_usage => Some lm_usage | _ => None end
|}.

(** A [dspy] that accepts every signature, whose teleprompters return the
    student with the training set as demos, and whose modules answer
    "Paris". *)
Definition accept_all : ModuleKind -> string -> option exn :=
  fun _ _ => None.

Definition compile_demos
    : Optimizer -> Metric Obj -> Program Obj -> list (DspyExample Obj)
      -> Outcome (Program Obj) :=
  fun teleprompter _ student trainset =>
    Ok (Compiled teleprompter student trainset).

Definition answer_paris
    : option (LM * bool) -> Program Obj -> gmap string Obj -> Outcome Obj :=
  fun _ _ _ => Ok (Prediction [("answer", Str "Paris")] None).

(** A [dspy] whose modules fail when called. *)
Definition forward_fails
    : option (LM * bool) -> Program Obj -> gmap string Obj -> Outcome Obj :=
  fun _ _ _ => Raise (Exn "RuntimeError" "connection refused").

Definition world0 : World :=
  {| next_id := 0;
     environ := {["OPENAI_API_KEY" := "sk-test"]};
     settings := None;
     now_isoformat := "2024-01-01T00:00:00" |}.

Definition world_without_key : World :=
  {| next_id := 0; environ := ∅; settings := None;
     now_isoformat := "2024-01-01T00:00:00" |}.

(** [{"config": {}}] *)
Definition options0 : Options Obj :=
  {| config := Some (Stated.config_with None None) |}.

(** A descriptor that asks for the output field [summary]. *)
Definition summary_config : Config Obj :=
  {| module_type := None; signature := Some "text -> summary"; tools := None;
     optimize := Some true; optimizer := None; examples := None;
     output_field := Some "summary"; debug := None |}.

(** A gold example and a prediction that disagree on [summary] and have
    no [answer]. *)
Definition gold_summary : DspyExample Obj :=
  {| store := {["summary" := Str "Paris"]}; input_keys := ["text"] |}.

Definition pred_summary : Obj :=
  Prediction [("summary", Str "London")] None.

(** A gold example and a prediction with an [answer] each. *)
Definition gold_answer : DspyExample Obj :=
  {| store := {["answer" := Str "Paris"]}; input_keys := ["question"] |}.

Definition pred_answer : Obj :=
  Prediction [("answer", Str "The capital is PARIS.")] None.


Definition provider0 : DSPyProvider Obj :=
  {| lm := {| model := "openai/gpt-4o-mini"; api_key := "sk-test" |};
     compiled_modules := ∅ |}.

(** A [cake_auth] with one configuration and one client. *)
Definition env0 : Auth.Env := {| Auth.environ := ∅; Auth.stdout := [] |}.

Definition auth_of (available : bool) : Auth.PromptfooAuth unit unit :=
  {| Auth.base_url := "https://promptfoo.dev.aws.kflow.ai";
     Auth.app_url := "https://promptfoo.dev.aws.kflow.ai";
     Auth.auth_available := available;
     Auth.config := if available then Some tt else None;
     Auth.client := if available then Some tt else None |}.

Definition method_password : unit -> Outcome string :=
  fun _ => Ok "password".

Definition token_none : unit -> Outcome (option string) :=
  fun _ => Ok None.

Definition token_raises (msg : string) : unit -> Outcome (option string) :=
  fun _ => Raise (Exn "RuntimeError" msg).

End Fixture.

(** ** modules.py *)

Module Modules.
Import Provider.

(** [sep.join(items)] *)
Fixpoint join (sep : string) (items : list string) : string :=
  match items with
  | [] => EmptyString
  | [item] => item
  | item :: rest => item +:+ sep +:+ join sep rest
  end.

(** A line feed, for the ["\n"] of a Python literal. *)
Definition LF : string := String (ascii_of_nat 10) EmptyString.

Section WithDSPy.
Context {O : Type} `{PyObject O}.

(** *** The [dspy] package *)

(** [example.keys()], in the order of the example's fields *)
Variable example_keys : O -> list string.
(** [example.inputs().keys()]; raises when no inputs were declared *)
Variable example_input_keys : O -> Outcome (list string).
(** [BootstrapFewShot(metric=metric).compile(module, trainset=trainset)] *)
Variable bootstrap_compile :
  (O -> O -> Outcome bool) -> Program O -> list O -> Outcome (Program O).
(** [dspy.Retrieve(k=k)(question).passages] *)
Variable retrieve_passages : nat -> O -> Outcome (list string).
(** calling a sub-module on keyword arguments *)
Variable call_module : Program O -> gmap string O -> Outcome O.

(** [name in names] on a list of strings *)
Definition name_in (name : string) (names : list string) : bool :=
  existsb (String.eqb name) names.

(** [[f for f in gold.keys() if f not in gold.inputs().keys()]]: the
    condition is not evaluated when there are no keys. *)
Definition output_fields (gold : O) : Outcome (list string) :=
  match example_keys gold with
  | [] => Ok []
  | keys =>
      match example_input_keys gold with
      | Ok input_keys =>
          Ok (List.filter (fun f => negb (name_in f input_keys)) keys)
      | Raise e => Raise e
      end
  end.

(** The metric [optimize_module] builds when it is given none. *)
Definition default_metric (gold pred : O) : Outcome bool :=
  match output_fields gold with
  | Raise e => Raise e
  | Ok [] => Ok true
  | Ok (field :: _) =>
      match py_getattr pred field, py_getattr gold field with
      | Some pred_field, Some gold_field =>
          let gold_value := PyStr.lower (py_str gold_field) in
          let pred_value := PyStr.lower (py_str pred_field) in
          Ok (PyStr.contains gold_value pred_value
              || PyStr.contains pred_value gold_value)
      | _, _ => Ok true
      end
  end.

Definition optimize_module (module : ModuleObj O) (trainset : list O)
    (metric : option (O -> O -> Outcome bool)) : M World (ModuleObj O) :=
  let metric := default default_metric metric in
  do optimized <- lift (bootstrap_compile metric (program module) trainset);
  new_object optimized.

(** *** class RAGModule *)

Record RAGModule := {
  retrieve : nat;                      (* the [k] of [dspy.Retrieve] *)
  generate_answer : Program O
}.

(** [passages_per_hop] is [None] when the caller leaves it to its default. *)
Definition RAGModule__init__ (passages_per_hop : option nat) : RAGModule :=
  let passages_per_hop := default 3 passages_per_hop in
  {| retrieve := passages_per_hop;
     generate_answer := Built ChainOfThought "context, question -> answer" |}.

Definition RAGModule_forward (self : RAGModule) (question : O)
    : Outcome O :=
  match retrieve_passages (retrieve self) question with
  | Raise e => Raise e
  | Ok passages =>
      let context := join LF (take 3 passages) in
      call_module (generate_answer self)
        (<["context" := py_of_str context]>
           (<["question" := question]> ∅))
  end.

End WithDSPy.

Arguments RAGModule O : clear implicits.
End Modules.

(** ** Further notions the statements use *)

Module StatedMore.
Import Provider Stated.

(** Every character of [s] passes [p]. *)
Fixpoint string_forall (p : ascii -> bool) (s : string) : bool :=
  match s with
  | EmptyString => true
  | String c s' => p c && string_forall p s'
  end.

(** What may occur in encoded text: a safe character or the percent sign. *)
Definition encoded_char (c : ascii) : bool :=
  PyUrl.always_safe c || Ascii.eqb c "%".

(** The value of one hexadecimal digit, upper case. *)
Definition unhex (c : ascii) : option nat :=
  let n := nat_of_ascii c in
  if (48 <=? n)%nat && (n <=? 57)%nat then Some (n - 48)
  else if (65 <=? n)%nat && (n <=? 70)%nat then Some (n - 55)
  else None.

(** Decoding of percent-encoded text; [None] on a malformed escape. *)
Fixpoint unquote (s : string) : option string :=
  match s with
  | EmptyString => Some EmptyString
  | String c s1 =>
      if Ascii.eqb c "%" then
        match s1 with
        | String h (String l rest) =>
            match unhex h, unhex l with
            | Some a, Some b =>
                option_map (String (ascii_of_nat (16 * a + b))) (unquote rest)
            | _, _ => None
            end
        | _ => None
        end
      else option_map (String c) (unquote s1)
  end.

(** The environment variables after a token was exported for Promptfoo. *)
Definition exported (base_url app_url token : string)
    (environ : gmap string string) : gmap string string :=
  <["PROMPTFOO_API_HEADERS" := "Authorization: Bearer " +:+ token]>
    (<["PROMPTFOO_SHARE_APP_BASE_URL" := app_url]>
       (<["PROMPTFOO_SHARE_API_BASE_URL" := base_url]>
          (<["PROMPTFOO_AUTH_TOKEN" := token]> environ))).

(** What the steps after the provider's construction leave alone in the
    process: the environment variables, the clock and the [dspy] settings;
    object identities are only ever handed out upwards. *)
Definition world_kept (w w' : World) : Prop :=
  environ w' = environ w /\
  now_isoformat w' = now_isoformat w /\
  settings w' = settings w /\
  next_id w <= next_id w'.

(** The error envelope. *)
Definition is_error_envelope (r : Response) : Prop :=
  (exists msg, error r = Some ("DSPy Provider Error: " +:+ msg)) /\
  output r = "" /\ tokenUsage r = None /\ metadata r = None /\
  debug_info r = None.

(** The success envelope: no error, metadata, and token usage, when there,
    with a positive total. *)
Definition is_success_envelope (r : Response) : Prop :=
  error r = None /\
  (exists m, metadata r = Some m) /\
  (forall usage, tokenUsage r = Some usage ->
     exists total prompt completion,
       (0 < total)%Z /\ usage = usage_mapping total prompt completion).

(** Text made of ASCII characters only; on such text [PyStr.lower] is
    Python's [str.lower], character by character. *)
Definition is_ascii (s : string) : bool :=
  string_forall (fun c => (nat_of_ascii c <? 128)%nat) s.

(** Whether a log entry can add to the totals. *)
Definition counted (entry : LogEntry) : bool :=
  match entry with
  | DictEntry (Some _) => true
  | _ => false
  end.

End StatedMore.

(** ** Further concrete values *)

Module FixtureMore.
Import Provider Fixture.

(** The field names of a prediction or a mapping, in order. *)
Definition keys_of (o : Obj) : list string :=
  match o with
  | Prediction fields _ => map fst fields
  | Dict items => map fst items
  | _ => []
  end.

(** Examples whose one input is [question]. *)
Definition inputs_question : Obj -> Outcome (list string) :=
  fun _ => Ok ["question"].

(** An expected answer that is longer than the produced one. *)
Definition gold_long : Obj :=
  Prediction [("question", Str "Capital of France?");
              ("answer", Str "Paris, France")] None.

Definition pred_short : Obj := Prediction [("answer", Str "paris")] None.

(** A retriever with five passages and a module that echoes its context. *)
Definition five_passages : nat -> Obj -> Outcome (list string) :=
  fun _ _ => Ok ["p1"; "p2"; "p3"; "p4"; "p5"].

Definition echo_context : Program Obj -> gmap string Obj -> Outcome Obj :=
  fun _ kwargs => Ok (default (Str "") (kwargs !! "context")).

(** An environment with a manual token. *)
Definition env_manual : Auth.Env :=
  {| Auth.environ := {["CAKE_JWT_TOKEN" := "jwt-123"]}; Auth.stdout := [] |}.

(** A [cake_auth] that cannot be configured. *)
Definition from_env_fails : gmap string string -> Outcome unit :=
  fun _ => Raise (Exn "ValueError" "no credentials").

Definition client_ok : unit -> Outcome unit := fun _ => Ok tt.

(** A [dspy] that rejects every signature, and one whose teleprompters
    fail. *)
Definition reject_all : ModuleKind -> string -> option exn :=
  fun _ _ => Some (Exn "ValueError" "invalid signature").

Definition compile_fails
    : Optimizer -> Metric Obj -> Program Obj -> list (DspyExample Obj)
      -> Outcome (Program Obj) :=
  fun _ _ _ _ => Raise (Exn "RuntimeError" "no language model").

(** A descriptor of unknown kind that asks for optimization on one
    example. *)
Definition unknown_optimizing_config : Config Obj :=
  {| module_type := Some "unknown_kind"; signature := None; tools := None;
     optimize := Some true; optimizer := None;
     examples := Some [{| ex_fields := {["question" := Str "2+2?"]};
                          ex_inputs := None |}];
     output_field := None; debug := None |}.

(** A descriptor that asks for optimization on one example. *)
Definition optimizing_config : Config Obj :=
  {| module_type := Some "chain_of_thought"; signature := None; tools := None;
     optimize := Some true; optimizer := None;
     examples := Some [{| ex_fields := {["question" := Str "2+2?"]};
                          ex_inputs := None |}];
     output_field := None; debug := None |}.

End FixtureMore.

(** ** Python strings: facts *)

Module PyStrFacts.
Import PyStr.

Lemma prefix_iff (p s : string) :
  String.prefix p s = true <-> exists rest, s = p +:+ rest.
Proof.
  revert s. induction p as [|c p IH]; intros s.
  - split; [intros _; exists s; reflexivity | intros _; destruct s; reflexivity].
  - destruct s as [|d s]; simpl.
    + split; [discriminate | intros [rest Hr]; discriminate].
    + destruct (ascii_dec c d) as [->|Hne].
      * rewrite IH. split; intros [rest Hr]; exists rest.
        -- simpl. now rewrite Hr.
        -- simpl in Hr. now inversion Hr.
      * split; [discriminate | intros [rest Hr]; simpl in Hr].
        inversion Hr. congruence.
Qed.

Lemma contains_unfold (needle hay : string) :
  contains needle hay =
    if String.prefix needle hay then true
    else match hay with
         | EmptyString => false
         | String _ hay' => contains needle hay'
         end.
Proof. destruct hay; reflexivity. Qed.

(** [needle in hay] holds exactly when [hay] splits around [needle]. *)
Lemma contains_iff (needle hay : string) :
  contains needle hay = true <->
  exists before after, hay = before +:+ needle +:+ after.
Proof.
  split.
  - induction hay as [|c hay IH]; rewrite contains_unfold;
      destruct (String.prefix needle _) eqn:Hp.
    + intros _. apply prefix_iff in Hp as [rest ->]. now exists "", rest.
    + discriminate.
    + intros _. apply prefix_iff in Hp as [rest ->]. now exists "", rest.
    + intros Hc. destruct (IH Hc) as (before & after & ->).
      now exists (String c before), after.
  - intros (before & after & ->).
    induction before as [|c before IH]; rewrite contains_unfold.
    + replace (String.prefix needle _) with true; [reflexivity|].
      symmetry. apply prefix_iff. now exists after.
    + destruct (String.prefix needle _); [reflexivity|]. exact IH.
Qed.

End PyStrFacts.

(** ** Effects: facts *)

Lemma bind_ok {W A B} (m : M W A) (k : A -> M W B) w a w' :
  m w = (Ok a, w') -> bind m k w = k a w'.
Proof. unfold bind. now intros ->. Qed.

Lemma bind_raise {W A B} (m : M W A) (k : A -> M W B) w e w' :
  m w = (Raise e, w') -> bind m k w = (Raise e, w').
Proof. unfold bind. now intros ->. Qed.

(** A [try] with a handler that returns never raises. *)
Lemma try_except_ret_total {W A} (body : M W A) (h : exn -> A) w :
  exists a w',
    try_except body (fun e => ret (h e)) w = (Ok a, w') /\
    (forall r w1, body w = (Ok r, w1) -> a = r /\ w' = w1) /\
    (forall e w1, body w = (Raise e, w1) -> a = h e /\ w' = w1).
Proof.
  unfold try_except, ret. destruct (body w) as [[r|e] w1].
  - exists r, w1. repeat split; congruence.
  - exists (h e), w1. repeat split; congruence.
Qed.

(** ** provider.py: the pure helpers *)

Module HelpersSpec.
Import Provider Stated.

Section WithObjects.
Context {O : Type} `{PyObject O}.

(** *** Keyword arguments *)

(** Assigning the items of a list one by one, keys all different, adds
    the mapping of the list over what was there. *)
Lemma assign_items_union (items : list (string * O)) (kwargs : gmap string O) :
  NoDup (items.*1) ->
  fold_left (fun kwargs kv => <[kv.1 := kv.2]> kwargs) items kwargs =
  list_to_map items ∪ kwargs.
Proof.
  revert kwargs. induction items as [|[k v] items IH]; intros kwargs Hnd.
  - simpl. now rewrite (left_id_L ∅ (∪)).
  - apply NoDup_cons in Hnd as [Hk Hnd]. simpl.
    rewrite IH by assumption.
    rewrite <- insert_union_l. symmetry. apply insert_union_r.
    now apply not_elem_of_list_to_map_1.
Qed.

(** The loop [for key, value in vars.items(): kwargs[key] = value] on an
    empty [kwargs] rebuilds [vars]. *)
Lemma assign_items_of_map (vars : gmap string O) :
  fold_left (fun kwargs kv => <[kv.1 := kv.2]> kwargs)
            (map_to_list vars) (∅ : gmap string O) = vars.
Proof.
  rewrite assign_items_union by apply NoDup_fst_map_to_list.
  rewrite (right_id_L ∅ (∪)). apply list_to_map_to_list.
Qed.

(** C3: with a template marker in the prompt the keyword arguments are
    exactly the variables and the prompt text is left out; without one
    they are the variables together with [question] bound to the prompt
    text, a variable named [question] taking precedence over the
    prompt. *)
Theorem build_kwargs_policy (prompt : string) (vars : gmap string O) :
  ((exists before after, prompt = before +:+ "{{" +:+ after) ->
     build_kwargs prompt vars = vars) /\
  ((~ exists before after, prompt = before +:+ "{{" +:+ after) ->
     build_kwargs prompt vars = vars ∪ {["question" := py_of_str prompt]} /\
     (forall key, key <> "question" ->
        build_kwargs prompt vars !! key = vars !! key) /\
     (forall value, vars !! "question" = Some value ->
        build_kwargs prompt vars !! "question" = Some value) /\
     (vars !! "question" = None ->
        build_kwargs prompt vars !! "question" = Some (py_of_str prompt))).
Proof.
  unfold build_kwargs. split.
  - intros Hmarker. apply PyStrFacts.contains_iff in Hmarker.
    rewrite Hmarker. apply assign_items_of_map.
  - intros Hplain.
    destruct (PyStr.contains "{{" prompt) eqn:Hc.
    { exfalso. apply Hplain. now apply PyStrFacts.contains_iff. }
    rewrite insert_empty. repeat split.
    + intros key Hkey. rewrite lookup_union, lookup_singleton_ne by congruence.
      now destruct (vars !! key).
    + intros value Hv. rewrite lookup_union, Hv, lookup_singleton_eq.
      reflexivity.
    + intros Hv. rewrite lookup_union, Hv, lookup_singleton_eq.
      reflexivity.
Qed.

(** *** Output extraction *)


(** *** Usage statistics *)

(** The loop keeps, in each running total, the start value plus the
    sum of the counter over the entries seen. *)
Lemma fold_add_entry (log : list LogEntry) (t p c : Z) :
  fold_left add_entry log (t, p, c) =
  ((t + log_sum total_tokens log)%Z,
   (p + log_sum prompt_tokens log)%Z,
   (c + log_sum completion_tokens log)%Z).
Proof.
  revert t p c. induction log as [|entry log IH]; intros t p c.
  - simpl. now rewrite !Z.add_0_r.
  - change (fold_left add_entry (entry :: log) (t, p, c))
      with (fold_left add_entry log (add_entry (t, p, c) entry)).
    change (log_sum ?f (entry :: log))
      with (entry_count f entry + log_sum f log)%Z.
    rewrite !Z.add_assoc.
    destruct entry as [|[usage_data|]]; unfold add_entry, entry_count;
      rewrite IH; unfold no_usage_data; simpl;
      rewrite ?Z.add_0_r; reflexivity.
Qed.

Lemma get_usage_stats_log (self : DSPyProvider O) (result : O)
    (log : list LogEntry) :
  py_get_lm_usage result = Some (Some log) ->
  _get_usage_stats self result =
    if (0 <? log_sum total_tokens log)%Z
    then usage_mapping (log_sum total_tokens log)
           (log_sum prompt_tokens log) (log_sum completion_tokens log)
    else ∅.
Proof.
  intros Hlog. unfold _get_usage_stats. rewrite Hlog.
  destruct log as [|entry rest]; [reflexivity|].
  rewrite fold_add_entry. rewrite !Z.add_0_l. reflexivity.
Qed.


End WithObjects.
End HelpersSpec.


(** ** provider.py: the registry and the optimizer *)

Module RegistrySpec.
Import Provider Stated.

Section WithDSPy.
Context {O : Type} `{PyObject O}.
Variable dspy_init_error : ModuleKind -> string -> option exn.
Variable dspy_compile :
  Optimizer -> Metric O -> Program O -> list (DspyExample O)
  -> Outcome (Program O).

#[local] Abbreviation optimize_module := (_optimize_module dspy_compile).
#[local] Abbreviation get_or_create_module :=
  (_get_or_create_module dspy_init_error dspy_compile).
#[local] Abbreviation module_type_of config :=
  (default "predict" (module_type config)).
#[local] Abbreviation signature_of config :=
  (default "question -> answer" (signature config)).

(** *** Optimization *)

Lemma optimize_module_no_examples (self : DSPyProvider O)
    (module : ModuleObj O) (config : Config O) (w : World) :
  default [] (examples config) = [] ->
  optimize_module self module config w = (Ok module, w).
Proof. unfold _optimize_module. intros ->. reflexivity. Qed.


(** *** The cache *)

(** A hit returns the cached object and changes nothing. *)
Lemma get_or_create_hit (self : DSPyProvider O) (config : Config O)
    (module : ModuleObj O) (w : World) :
  compiled_modules self
    !! cache_key_of (module_type_of config) (signature_of config)
    = Some module ->
  get_or_create_module self config w = (Ok (module, self), w).
Proof. intros Hhit. unfold _get_or_create_module. now rewrite Hhit. Qed.

(** A miss creates the module, optimizes it on request and stores it. *)
Lemma get_or_create_miss (self : DSPyProvider O) (config : Config O) :
  compiled_modules self
    !! cache_key_of (module_type_of config) (signature_of config) = None ->
  get_or_create_module self config =
    (do module <- create_module dspy_init_error (module_type_of config)
                    (signature_of config) config;
     do module <- (if default false (optimize config)
                   then optimize_module self module config
                   else ret module);
     ret (module,
          set_compiled_modules
            (<[cache_key_of (module_type_of config) (signature_of config)
               := module]> (compiled_modules self)) self)).
Proof. intros Hmiss. unfold _get_or_create_module. now rewrite Hmiss. Qed.

(** Whatever a resolution returns is in the cache afterwards, under the
    descriptor's key. *)
Lemma get_or_create_cached (self self' : DSPyProvider O) (config : Config O)
    (module : ModuleObj O) (w w' : World) :
  get_or_create_module self config w = (Ok (module, self'), w') ->
  compiled_modules self'
    !! cache_key_of (module_type_of config) (signature_of config)
    = Some module.
Proof.
  destruct (compiled_modules self
              !! cache_key_of (module_type_of config) (signature_of config))
    as [cached|] eqn:Hlookup.
  - rewrite (get_or_create_hit _ _ _ _ Hlookup). intros [= <- <- _].
    exact Hlookup.
  - rewrite (get_or_create_miss _ _ Hlookup). unfold bind, ret.
    destruct (create_module _ _ _ _ w) as [[m0|e0] w0]; [|discriminate].
    destruct (if default false (optimize config) then _ else _)
      as [[m1|e1] w1]; [|discriminate].
    intros [= <- <- _]. simpl. apply lookup_insert_eq.
Qed.


(** *** Unknown module kinds *)

Lemma create_module_unknown (module_type signature : string)
    (config : Config O) :
  ~ In module_type recognized_kinds ->
  create_module dspy_init_error module_type signature config =
  dspy_new dspy_init_error Predict signature.
Proof.
  intros Hkind. unfold create_module.
  repeat match goal with
         | |- context [String.eqb module_type ?k] =>
             destruct (String.eqb_spec module_type k) as [Heq|_];
             [exfalso; apply Hkind; rewrite Heq; simpl; tauto|]
         end.
  reflexivity.
Qed.

(** A provider that was just constructed has an empty cache. *)
Lemma init_empty_cache (w w0 : World) (provider : DSPyProvider O) :
  __init__ w = (Ok provider, w0) -> compiled_modules provider = ∅.
Proof.
  unfold __init__.
  destruct (environ w !! "OPENAI_API_KEY") as [[|c key]|];
    [discriminate| |discriminate].
  now intros [= <- _].
Qed.

(** C6, as the code has it: for a module type outside the four known kinds
    the provider has no error of its own: the instantiation step is the call
    of [dspy.Predict] on the requested signature.  On a provider that holds
    nothing under the descriptor's key, when [dspy.Predict] accepts the
    signature and no optimizer is run, resolution returns a new [Predict]
    module for that signature and stores it; inside [call_api], once the
    provider is constructed, it is new, and so does the resolution step. *)
Theorem unknown_kind_builds_predict (self : DSPyProvider O)
    (config : Config O) (w : World) :
  ~ In (module_type_of config) recognized_kinds ->
  create_module dspy_init_error (module_type_of config) (signature_of config)
    config = dspy_new dspy_init_error Predict (signature_of config) /\
  (compiled_modules self
     !! cache_key_of (module_type_of config) (signature_of config) = None ->
   dspy_init_error Predict (signature_of config) = None ->
   default false (optimize config) = false \/
     default [] (examples config) = [] ->
   let module :=
     {| id := next_id w; program := Built Predict (signature_of config) |} in
   get_or_create_module self config w =
     (Ok (module,
          set_compiled_modules
            (<[cache_key_of (module_type_of config) (signature_of config)
               := module]> (compiled_modules self)) self),
      set_next_id (S (next_id w)) w)) /\
  (forall options provider w0,
     Provider.config options = Some config ->
     __init__ w = (Ok provider, w0) ->
     dspy_init_error Predict (signature_of config) = None ->
     default false (optimize config) = false \/
       default [] (examples config) = [] ->
     let module :=
       {| id := next_id w0; program := Built Predict (signature_of config) |} in
     resolve dspy_init_error dspy_compile options w =
       (Ok (set_compiled_modules
              (<[cache_key_of (module_type_of config) (signature_of config)
                 := module]> ∅) provider,
            config, module),
        set_next_id (S (next_id w0)) w0)).
Proof.
  intros Hkind.
  assert (Hmiss_case : forall (self0 : DSPyProvider O) (w0 : World),
    compiled_modules self0
      !! cache_key_of (module_type_of config) (signature_of config) = None ->
    dspy_init_error Predict (signature_of config) = None ->
    default false (optimize config) = false \/
      default [] (examples config) = [] ->
    get_or_create_module self0 config w0 =
      (Ok ({| id := next_id w0;
              program := Built Predict (signature_of config) |},
           set_compiled_modules
             (<[cache_key_of (module_type_of config) (signature_of config)
                := {| id := next_id w0;
                      program := Built Predict (signature_of config) |}]>
                (compiled_modules self0)) self0),
       set_next_id (S (next_id w0)) w0)).
  { intros self0 w0 Hmiss Haccept Hplain.
    rewrite (get_or_create_miss _ _ Hmiss).
    rewrite (create_module_unknown _ _ _ Hkind).
    unfold bind, dspy_new. rewrite Haccept. unfold new_object, ret.
    destruct Hplain as [Hoff|Hnone].
    - rewrite Hoff. reflexivity.
    - destruct (default false (optimize config)); [|reflexivity].
      now rewrite (optimize_module_no_examples _ _ _ _ Hnone). }
  split; [now apply create_module_unknown|]. split.
  - intros Hmiss Haccept Hplain module. now apply Hmiss_case.
  - intros options provider w0 Hcfg Hinit Haccept Hplain module.
    pose proof (init_empty_cache _ _ _ Hinit) as Hempty.
    unfold resolve. rewrite (bind_ok _ _ _ _ _ Hinit).
    rewrite Hcfg. cbn [default from_option].
    erewrite bind_ok.
    2:{ apply Hmiss_case; [rewrite Hempty; apply lookup_empty|assumption..]. }
    unfold ret. rewrite Hempty. reflexivity.
Qed.

(** *** Colliding keys *)

(** C10: the descriptors (predict, "x_y -> z") and (predict_x, "y -> z")
    differ, yet both join to the key "predict_x_y -> z".  So when a new
    provider has resolved the first, resolving the second on it returns the
    object built for the first, a [Predict] module for the signature
    "x_y -> z", and builds nothing for "y -> z". *)
Theorem colliding_keys_share_instance (lm0 : LM) (self' : DSPyProvider O)
    (module : ModuleObj O) (w w' later : World) :
  let first : Config O := config_with (Some "predict") (Some "x_y -> z") in
  let second : Config O := config_with (Some "predict_x") (Some "y -> z") in
  get_or_create_module {| lm := lm0; compiled_modules := ∅ |} first w
    = (Ok (module, self'), w') ->
  (module_type_of first, signature_of first)
    <> (module_type_of second, signature_of second) /\
  cache_key_of (module_type_of first) (signature_of first)
    = cache_key_of (module_type_of second) (signature_of second) /\
  module = {| id := next_id w; program := Built Predict "x_y -> z" |} /\
  get_or_create_module self' second later = (Ok (module, self'), later).
Proof.
  intros first second Hfirst.
  split; [discriminate|]. split; [reflexivity|]. split.
  - revert Hfirst. unfold _get_or_create_module. simpl.
    rewrite lookup_empty. unfold bind, create_module, dspy_new. simpl.
    destruct (dspy_init_error Predict "x_y -> z"); [discriminate|].
    unfold new_object, ret. now intros [= <- _ _].
  - apply get_or_create_hit.
    exact (get_or_create_cached _ _ _ _ _ _ Hfirst).
Qed.

End WithDSPy.
End RegistrySpec.


(** ** provider.py: the entry point and the metric *)

Module CallApiSpec.
Import Provider Stated.

Section WithDSPy.
Context {O : Type} `{PyObject O}.
Variable dspy_init_error : ModuleKind -> string -> option exn.
Variable dspy_compile :
  Optimizer -> Metric O -> Program O -> list (DspyExample O)
  -> Outcome (Program O).
Variable dspy_forward :
  option (LM * bool) -> Program O -> gmap string O -> Outcome O.

#[local] Abbreviation get_or_create_module :=
  (_get_or_create_module dspy_init_error dspy_compile).
#[local] Abbreviation new_provider := (__init__ (O := O)).
#[local] Abbreviation call_api_try' :=
  (call_api_try dspy_init_error dspy_compile dspy_forward).
#[local] Abbreviation call_api' :=
  (call_api dspy_init_error dspy_compile dspy_forward).

(** The three places of the [try] block where something can raise. *)
Lemma try_raises_at_init prompt (options : Options O)
    (context : CallContext O) w e w1 :
  new_provider w = (Raise e, w1) ->
  call_api_try' prompt options context w = (Raise e, w1).
Proof.
  intros Hinit. unfold call_api_try, resolve.
  apply bind_raise. now apply bind_raise.
Qed.

Lemma try_raises_at_resolution prompt (options : Options O)
    (context : CallContext O) w provider w1 e w2 :
  new_provider w = (Ok provider, w1) ->
  get_or_create_module provider (default empty_config (config options)) w1
    = (Raise e, w2) ->
  call_api_try' prompt options context w = (Raise e, w2).
Proof.
  intros Hinit Hres. unfold call_api_try, resolve.
  apply bind_raise. rewrite (bind_ok _ _ _ _ _ Hinit).
  now apply bind_raise.
Qed.

Lemma try_raises_at_invocation prompt (options : Options O)
    (context : CallContext O) w provider w1 module provider' w2 e :
  new_provider w = (Ok provider, w1) ->
  get_or_create_module provider (default empty_config (config options)) w1
    = (Ok (module, provider'), w2) ->
  dspy_forward (settings w2) (program module)
    (build_kwargs prompt (default ∅ (vars context))) = Raise e ->
  call_api_try' prompt options context w = (Raise e, w2).
Proof.
  intros Hinit Hres Hcall. unfold call_api_try, resolve.
  erewrite bind_ok.
  2:{ rewrite (bind_ok _ _ _ _ _ Hinit). rewrite (bind_ok _ _ _ _ _ Hres).
      reflexivity. }
  unfold bind, lift. now rewrite Hcall.
Qed.

Lemma call_api_of_raise prompt (options : Options O)
    (context : CallContext O) w e w1 :
  call_api_try' prompt options context w = (Raise e, w1) ->
  call_api' prompt options context w = (Ok (error_response e), w1).
Proof. intros Hbody. unfold call_api, try_except. now rewrite Hbody. Qed.

(** C2: [call_api] always returns a response.  An exception out of the
    [try] block (from the provider's construction, from program resolution
    or from the program's invocation; reading the configuration and
    building the inputs have no raising path) is caught here, the only
    handler on the path, and the response is then
    [{error: "DSPy Provider Error: " + str(e), output: ""}]. *)
Theorem call_api_never_raises (prompt : string) (options : Options O)
    (context : CallContext O) (w : World) :
  (exists response w',
     call_api' prompt options context w = (Ok response, w')) /\
  (forall e w1,
     call_api_try' prompt options context w = (Raise e, w1) ->
     exists response,
       call_api' prompt options context w = (Ok response, w1) /\
       error response = Some ("DSPy Provider Error: " +:+ exn_str e) /\
       output response = "" /\
       tokenUsage response = None /\ metadata response = None /\
       debug_info response = None) /\
  (forall e w1,
     new_provider w = (Raise e, w1) ->
     call_api' prompt options context w = (Ok (error_response e), w1)) /\
  (forall provider w1 e w2,
     new_provider w = (Ok provider, w1) ->
     get_or_create_module provider (default empty_config (config options)) w1
       = (Raise e, w2) ->
     call_api' prompt options context w = (Ok (error_response e), w2)) /\
  (forall provider w1 module provider' w2 e,
     new_provider w = (Ok provider, w1) ->
     get_or_create_module provider (default empty_config (config options)) w1
       = (Ok (module, provider'), w2) ->
     dspy_forward (settings w2) (program module)
       (build_kwargs prompt (default ∅ (vars context))) = Raise e ->
     call_api' prompt options context w = (Ok (error_response e), w2)).
Proof.
  repeat split.
  - destruct (try_except_ret_total (call_api_try' prompt options context)
                error_response w) as (response & w' & Hrun & _).
    now exists response, w'.
  - intros e w1 Hbody. exists (error_response e).
    split; [now apply call_api_of_raise|]. repeat split.
  - intros e w1 Hinit.
    now apply call_api_of_raise, try_raises_at_init.
  - intros provider w1 e w2 Hinit Hres.
    apply call_api_of_raise. now apply try_raises_at_resolution with provider w1.
  - intros provider w1 module provider' w2 e Hinit Hres Hcall.
    apply call_api_of_raise.
    now apply try_raises_at_invocation with provider w1 module provider'.
Qed.

(** *** The metric *)

(** C8, as the code has it: the metric reads the attribute [answer] of both
    sides, whatever output field is configured.  When both have it, as
    text, the result is whether the expected answer, lower-cased, occurs in
    the produced answer, lower-cased; when either side lacks it, the result
    is true. *)
Theorem metric_checks_answer (gold : DspyExample O) (pred : O) :
  (forall expected produced e p,
     store gold !! "answer" = Some expected ->
     py_getattr pred "answer" = Some produced ->
     py_as_str expected = Some e -> py_as_str produced = Some p ->
     exists b,
       metric gold pred = Ok b /\
       (b = true <->
        exists before after,
          PyStr.lower p = before +:+ PyStr.lower e +:+ after)) /\
  (store gold !! "answer" = None \/ py_getattr pred "answer" = None ->
     metric gold pred = Ok true).
Proof.
  unfold metric. split.
  - intros expected produced e p -> -> -> ->.
    eexists. split; [reflexivity|]. apply PyStrFacts.contains_iff.
  - intros [-> | ->]; [|reflexivity].
    now destruct (py_getattr pred "answer").
Qed.

End WithDSPy.
End CallApiSpec.


(** ** auth.py *)

Module AuthSpec.
Import Auth Stated.

Lemma printed_nil env : printed [] env = env.
Proof. destruct env. unfold printed. simpl. now rewrite app_nil_r. Qed.

Lemma printed_printed l1 l2 env :
  printed l2 (printed l1 env) = printed (l1 ++ l2) env.
Proof. unfold printed. simpl. now rewrite app_assoc. Qed.

Lemma print_all_printed lines env :
  print_all lines env = (Ok tt, printed lines env).
Proof.
  revert env. induction lines as [|line lines IH]; intros env; simpl.
  - unfold ret. now rewrite printed_nil.
  - unfold bind, print. rewrite IH.
    change {| environ := environ env; stdout := stdout env ++ [line] |}
      with (printed [line] env).
    now rewrite printed_printed.
Qed.

Lemma getenv_absent env :
  no_manual_token env ->
  getenv "CAKE_JWT_TOKEN" env = (Ok None, env) \/
  getenv "CAKE_JWT_TOKEN" env = (Ok (Some ""), env).
Proof. unfold getenv. intros [-> | ->]; auto. Qed.

Lemma bind_print {A} (line : string) (k : unit -> M Env A) env :
  bind (print line) k env = k tt (printed [line] env).
Proof. reflexivity. Qed.

Lemma bind_method_of {A B C} (name : string) (o : option A) (a : A)
    (call : A -> Outcome B) (k : B -> M Env C) env :
  o = Some a ->
  bind (method_of name o call) k env =
    match call a with
    | Ok b => k b env
    | Raise e => (Raise e, env)
    end.
Proof. intros ->. unfold bind, method_of, lift. now destruct (call a). Qed.

Section WithCakeAuth.
Variables CakeAuthConfig CakeAuthClient : Type.
Variable get_recommended_auth_method : CakeAuthConfig -> Outcome string.
Variable get_token : CakeAuthClient -> Outcome (option string).

#[local] Abbreviation configure :=
  (configure_promptfoo_env get_recommended_auth_method get_token).

(** Without a manual token the function is its second half. *)
Lemma configure_without_manual_token self env :
  no_manual_token env ->
  configure self env =
    (if negb (auth_available self) then
       run print_all unavailable_lines; ret PyNone
     else
       try_except
         (do auth_method <- method_of "get_recommended_auth_method"
                              (config self) get_recommended_auth_method;
          run print ("Using auth method: " +:+ auth_method);
          do token <- method_of "get_token" (client self) get_token;
          match token with
          | Some (String c t as token) =>
              run export_token self token;
              run print ("✓ Authentication configured for "
                           +:+ base_url self);
              ret (PyBool true)
          | _ =>
              run print
                "⚠️  No auth token retrieved - authentication may fail";
              ret (PyBool false)
          end)
         (fun e =>
            run print ("⚠️  Authentication setup failed: " +:+ exn_str e);
            run (if PyStr.contains "browser" (PyStr.lower (exn_str e))
                 then print_all browser_lines
                 else ret tt);
            ret (PyBool false))) env.
Proof.
  intros Hno. unfold configure_promptfoo_env.
  unfold bind at 1.
  destruct (getenv_absent env Hno) as [-> | ->]; reflexivity.
Qed.

Lemma handler_printed (e : exn) env :
  (run print ("⚠️  Authentication setup failed: " +:+ exn_str e);
   run (if PyStr.contains "browser" (PyStr.lower (exn_str e))
        then print_all browser_lines
        else ret tt);
   ret (PyBool false)) env
  = (Ok (PyBool false), printed (failure_lines e) env).
Proof.
  unfold failure_lines, bind, print, ret.
  change {| environ := environ env; stdout := stdout env ++ [?l] |}
    with (printed [l] env).
  destruct (PyStr.contains "browser" (PyStr.lower (exn_str e))).
  - rewrite print_all_printed. now rewrite printed_printed.
  - reflexivity.
Qed.

(** C9, as the code has it: with no manual token, a failed credential
    retrieval never raises and leaves the environment variables alone.
    When the auth system is unavailable the warning and the four lines of
    advice are printed.  When no token comes back, the warning is printed
    without any advice and the result is [False].  When the setup raises,
    the warning with the error text is printed, followed by the browser
    advice only if the error text mentions "browser", and the result is
    [False]. *)
Theorem auth_failure_is_reported (self : PromptfooAuth CakeAuthConfig CakeAuthClient)
    (env : Env) :
  no_manual_token env ->
  (auth_available self = false ->
     exists result,
       configure self env = (Ok result, printed unavailable_lines env)) /\
  (forall cfg cl method token,
     auth_available self = true ->
     config self = Some cfg -> client self = Some cl ->
     get_recommended_auth_method cfg = Ok method ->
     get_token cl = Ok token -> token = None \/ token = Some "" ->
     configure self env =
       (Ok (PyBool false),
        printed ["Using auth method: " +:+ method;
                 "⚠️  No auth token retrieved - authentication may fail"]
                env)) /\
  (forall cfg e,
     auth_available self = true -> config self = Some cfg ->
     get_recommended_auth_method cfg = Raise e ->
     configure self env = (Ok (PyBool false), printed (failure_lines e) env)) /\
  (forall cfg cl method e,
     auth_available self = true ->
     config self = Some cfg -> client self = Some cl ->
     get_recommended_auth_method cfg = Ok method ->
     get_token cl = Raise e ->
     configure self env =
       (Ok (PyBool false),
        printed (("Using auth method: " +:+ method) :: failure_lines e) env)).
Proof.
  intros Hno. rewrite (configure_without_manual_token self env Hno).
  repeat split.
  - intros ->. exists PyNone. cbn [negb]. unfold bind.
    now rewrite print_all_printed.
  - intros cfg cl method token -> Hcfg Hcl Hmethod Htoken Hfalsy.
    cbn [negb]. unfold try_except.
    rewrite (bind_method_of _ _ cfg _ _ _ Hcfg), Hmethod, bind_print.
    rewrite (bind_method_of _ _ cl _ _ _ Hcl), Htoken.
    destruct Hfalsy as [-> | ->]; rewrite bind_print, printed_printed;
      reflexivity.
  - intros cfg e -> Hcfg Hmethod. cbn [negb]. unfold try_except.
    rewrite (bind_method_of _ _ cfg _ _ _ Hcfg), Hmethod.
    apply handler_printed.
  - intros cfg cl method e -> Hcfg Hcl Hmethod Htoken. cbn [negb].
    unfold try_except.
    rewrite (bind_method_of _ _ cfg _ _ _ Hcfg), Hmethod, bind_print.
    rewrite (bind_method_of _ _ cl _ _ _ Hcl), Htoken.
    rewrite handler_printed. now rewrite printed_printed.
Qed.

End WithCakeAuth.
End AuthSpec.


(** ** The statements at concrete inputs *)

Module Checks.
Import Provider Stated Fixture.

(** *** The registry *)



(** An unknown kind on a new provider. *)
Lemma unknown_kind_builds_predict_witness :
  let cfg : Config Obj := config_with (Some "unknown_kind") None in
  let m : ModuleObj Obj :=
    {| id := 0; program := Built Predict "question -> answer" |} in
  ~ In "unknown_kind" recognized_kinds /\
  _get_or_create_module accept_all compile_demos provider0 cfg world0 =
    (Ok (m, set_compiled_modules
              (<["unknown_kind_question -> answer" := m]> ∅) provider0),
     set_next_id 1 world0).
Proof.
  intros cfg m.
  assert (Hkind : ~ In "unknown_kind" recognized_kinds).
  { simpl. intros [Hk|[Hk|[Hk|[Hk|[]]]]]; discriminate Hk. }
  split; [exact Hkind|].
  exact (proj1 (proj2 (RegistrySpec.unknown_kind_builds_predict accept_all
                         compile_demos provider0 cfg world0 Hkind))
           eq_refl eq_refl (or_introl eq_refl)).
Defined.

(** C6 as stated fails in three ways.  On a provider that has resolved
    (chain_of_thought, "q -> a"), the unknown kind "chain" with the signature
    "of_thought_q -> a" joins to the same key and gets the cached
    [ChainOfThought] module, not a [Predict]; when [dspy.Predict] rejects the
    signature the resolution raises; and when the optimizer fails the
    resolution raises. *)
Lemma unknown_kind_not_always_predict :
  let known : Config Obj :=
    config_with (Some "chain_of_thought") (Some "q -> a") in
  let unknown : Config Obj :=
    config_with (Some "chain") (Some "of_thought_q -> a") in
  let cached : ModuleObj Obj :=
    {| id := 0; program := Built ChainOfThought "q -> a" |} in
  let warm :=
    set_compiled_modules (<["chain_of_thought_q -> a" := cached]> ∅)
      provider0 in
  ~ In "chain" recognized_kinds /\
  ~ In "unknown_kind" recognized_kinds /\
  _get_or_create_module accept_all compile_demos provider0 known world0
    = (Ok (cached, warm), set_next_id 1 world0) /\
  _get_or_create_module accept_all compile_demos warm unknown
      (set_next_id 1 world0)
    = (Ok (cached, warm), set_next_id 1 world0) /\
  _get_or_create_module FixtureMore.reject_all compile_demos provider0
      (config_with (Some "unknown_kind") None) world0
    = (Raise (Exn "ValueError" "invalid signature"), world0) /\
  _get_or_create_module accept_all FixtureMore.compile_fails provider0
      FixtureMore.unknown_optimizing_config world0
    = (Raise (Exn "RuntimeError" "no language model"), set_next_id 1 world0).
Proof.
  intros known unknown cached warm.
  split; [simpl; intros [Hk|[Hk|[Hk|[Hk|[]]]]]; discriminate Hk|].
  split; [simpl; intros [Hk|[Hk|[Hk|[Hk|[]]]]]; discriminate Hk|].
  repeat split; reflexivity.
Qed.


(** The two colliding descriptors on a new provider. *)
Lemma colliding_keys_share_instance_witness :
  let first : Config Obj := config_with (Some "predict") (Some "x_y -> z") in
  let second : Config Obj := config_with (Some "predict_x") (Some "y -> z") in
  let m : ModuleObj Obj :=
    {| id := 0; program := Built Predict "x_y -> z" |} in
  let self' :=
    set_compiled_modules (<["predict_x_y -> z" := m]> ∅) provider0 in
  _get_or_create_module accept_all compile_demos provider0 first world0
    = (Ok (m, self'), set_next_id 1 world0) /\
  _get_or_create_module accept_all compile_demos self' second
      (set_next_id 1 world0)
    = (Ok (m, self'), set_next_id 1 world0).
Proof.
  intros first second m self'.
  assert (Hfirst :
    _get_or_create_module accept_all compile_demos provider0 first world0
      = (Ok (m, self'), set_next_id 1 world0)) by reflexivity.
  split; [exact Hfirst|].
  exact (proj2 (proj2 (proj2
           (RegistrySpec.colliding_keys_share_instance accept_all
              compile_demos (lm provider0) self' m world0
              (set_next_id 1 world0) (set_next_id 1 world0) Hfirst)))).
Defined.

(** *** The entry point *)

(** A module that fails when called: the response is the error envelope. *)
Lemma call_api_never_raises_witness :
  let e := Exn "RuntimeError" "connection refused" in
  exists w',
    call_api accept_all compile_demos forward_fails "What is the capital?"
      options0 {| vars := None |} world0
    = (Ok {| output := ""; tokenUsage := None; metadata := None;
             debug_info := None;
             error := Some "DSPy Provider Error: connection refused" |}, w').
Proof.
  intros e. eexists.
  refine (proj2 (proj2 (proj2 (proj2
            (CallApiSpec.call_api_never_raises accept_all compile_demos
               forward_fails "What is the capital?" options0
               {| vars := None |} world0))))
            provider0
            (set_settings (Some (lm provider0, true)) world0)
            {| id := 0; program := Built Predict "question -> answer" |}
            (set_compiled_modules
               (<["predict_question -> answer" :=
                    {| id := 0;
                       program := Built Predict "question -> answer" |}]> ∅)
               provider0)
            _ e _ _ _);
    vm_compute; reflexivity.
Defined.

(** *** The helpers *)

(** A templated prompt and a plain one, with the variable [name]. *)
Lemma build_kwargs_policy_witness :
  let vars : gmap string Obj := {["name" := Str "Ann"]} in
  (exists before after, "Hello {{name}}" = before +:+ "{{" +:+ after) /\
  build_kwargs "Hello {{name}}" vars = vars /\
  (~ exists before after, "What?" = before +:+ "{{" +:+ after) /\
  build_kwargs "What?" vars = vars ∪ {["question" := Str "What?"]}.
Proof.
  intros vars.
  assert (Hmarker :
    exists before after, "Hello {{name}}" = before +:+ "{{" +:+ after).
  { exists "Hello ", "name}}". reflexivity. }
  assert (Hplain : ~ exists before after, "What?" = before +:+ "{{" +:+ after).
  { intros Hex. apply PyStrFacts.contains_iff in Hex. discriminate Hex. }
  split; [exact Hmarker|].
  split; [exact (proj1 (HelpersSpec.build_kwargs_policy "Hello {{name}}" vars)
                   Hmarker)|].
  split; [exact Hplain|].
  exact (proj1 (proj2 (HelpersSpec.build_kwargs_policy "What?" vars) Hplain)).
Defined.



(** *** The metric *)

(** The expected answer occurs in the produced one, up to case. *)
Lemma metric_checks_answer_witness :
  exists b,
    metric gold_answer pred_answer = Ok b /\
    (b = true <->
     exists before after,
       PyStr.lower "The capital is PARIS."
       = before +:+ PyStr.lower "Paris" +:+ after).
Proof.
  exact (proj1 (CallApiSpec.metric_checks_answer gold_answer pred_answer)
           (Str "Paris") (Str "The capital is PARIS.") "Paris"
           "The capital is PARIS." eq_refl eq_refl eq_refl eq_refl).
Defined.

(** C8 as stated fails: with the output field set to [summary], expected
    "Paris" and produced "London", containment on the configured field is
    false, yet the metric answers true, since it looks at [answer] only. *)
Lemma metric_ignores_output_field :
  output_field summary_config = Some "summary" /\
  metric_on_output_field (default "answer" (output_field summary_config))
    gold_summary pred_summary = Some false /\
  metric gold_summary pred_summary = Ok true.
Proof. vm_compute. repeat split. Qed.

(** *** The auth helper *)

(** No token comes back from an available auth system. *)
Lemma auth_failure_is_reported_witness :
  no_manual_token env0 /\
  Auth.configure_promptfoo_env method_password token_none (auth_of true) env0
  = (Ok (Auth.PyBool false),
     printed ["Using auth method: password";
              "⚠️  No auth token retrieved - authentication may fail"] env0).
Proof.
  assert (Hno : no_manual_token env0) by (left; reflexivity).
  split; [exact Hno|].
  exact (proj1 (proj2 (AuthSpec.auth_failure_is_reported unit unit
                         method_password token_none (auth_of true) env0 Hno))
           tt tt "password" None eq_refl eq_refl eq_refl eq_refl eq_refl
           (or_introl eq_refl)).
Defined.

(** C9 as stated fails: with the auth system unavailable the result is
    [None], not [False]; and when no token comes back the only lines printed
    are the method in use and the warning, with no advice. *)
Lemma auth_failure_not_uniform :
  fst (Auth.configure_promptfoo_env method_password token_none
         (auth_of false) env0) = Ok Auth.PyNone /\
  Auth.stdout (snd (Auth.configure_promptfoo_env method_password token_none
                      (auth_of true) env0))
  = ["Using auth method: password";
     "⚠️  No auth token retrieved - authentication may fail"].
Proof. vm_compute. split; reflexivity. Qed.

End Checks.


(** ** provider.py: more on the registry *)

Module RegistryMore.
Import Provider Stated StatedMore.

Lemma append_cancel (a x y : string) : a +:+ x = a +:+ y -> x = y.
Proof.
  induction a as [|c a IH]; simpl; intros Heq; [exact Heq|].
  apply IH. now inversion Heq.
Qed.

(** X1: among the four module kinds the provider knows, the cache key tells
    descriptors apart: two keys agree only if kind and signature both do. *)
Theorem recognized_keys_injective (kind1 kind2 sig1 sig2 : string) :
  In kind1 recognized_kinds -> In kind2 recognized_kinds ->
  cache_key_of kind1 sig1 = cache_key_of kind2 sig2 ->
  kind1 = kind2 /\ sig1 = sig2.
Proof.
  unfold recognized_kinds, cache_key_of. simpl.
  intros [<-|[<-|[<-|[<-|[]]]]] [<-|[<-|[<-|[<-|[]]]]] Hkey;
    simpl in Hkey; try discriminate Hkey;
    (split; [reflexivity|]); now inversion Hkey.
Qed.

Section WithDSPy.
Context {O : Type} `{PyObject O}.
Variable dspy_init_error : ModuleKind -> string -> option exn.
Variable dspy_compile :
  Optimizer -> Metric O -> Program O -> list (DspyExample O)
  -> Outcome (Program O).

#[local] Abbreviation get_or_create_module :=
  (_get_or_create_module dspy_init_error dspy_compile).
#[local] Abbreviation key_of config :=
  (cache_key_of (default "predict" (module_type config))
     (default "question -> answer" (signature config))).

(** X2: a resolution never evicts and never overwrites.  After it returns,
    every entry the cache had is still there with the same object; a hit
    leaves provider and world as they were, and a miss adds exactly the
    returned module under the descriptor's key. *)
Theorem cache_only_grows (self self' : DSPyProvider O) (config : Config O)
    (module : ModuleObj O) (w w' : World) :
  get_or_create_module self config w = (Ok (module, self'), w') ->
  (forall key cached,
     compiled_modules self !! key = Some cached ->
     compiled_modules self' !! key = Some cached) /\
  (forall cached,
     compiled_modules self !! key_of config = Some cached ->
     module = cached /\ self' = self /\ w' = w) /\
  (compiled_modules self !! key_of config = None ->
     compiled_modules self'
       = <[key_of config := module]> (compiled_modules self) /\
     lm self' = lm self).
Proof.
  intros Hrun.
  destruct (compiled_modules self !! key_of config) as [hit|] eqn:Hlookup.
  - rewrite (RegistrySpec.get_or_create_hit _ _ _ _ _ _ Hlookup) in Hrun.
    injection Hrun as <- <- <-.
    split; [auto|]. split; [|discriminate].
    intros cached [= <-]. auto.
  - rewrite (RegistrySpec.get_or_create_miss _ _ _ _ Hlookup) in Hrun.
    unfold bind, ret in Hrun.
    destruct (create_module _ _ _ _ w) as [[m0|e0] w0]; [|discriminate].
    destruct (if default false (optimize config) then _ else _)
      as [[m1|e1] w1]; [|discriminate].
    injection Hrun as <- <- <-. simpl.
    split; [|split; [discriminate|auto]].
    intros key cached Hcached.
    rewrite lookup_insert_ne; [exact Hcached|].
    intros <-. congruence.
Qed.

(** X3: what the cache keeps after an optimizer run is the optimized
    program.  On a miss with optimization requested, examples given and a
    supported optimizer, the base module is created first, the optimizer's
    result becomes a new object, and that object is what is returned and
    stored; an exception of the optimizer leaves the resolution by the same
    way, after the base module was created. *)
Theorem optimized_module_is_cached (self : DSPyProvider O)
    (config : Config O) (base : ModuleObj O) (w w1 : World)
    (teleprompter : Optimizer) :
  compiled_modules self !! key_of config = None ->
  create_module dspy_init_error (default "predict" (module_type config))
    (default "question -> answer" (signature config)) config w
    = (Ok base, w1) ->
  default false (optimize config) = true ->
  default [] (examples config) <> [] ->
  (default "BootstrapFewShot" (optimizer config) = "BootstrapFewShot" /\
   teleprompter = BootstrapFewShot) \/
  (default "BootstrapFewShot" (optimizer config)
     = "BootstrapFewShotWithRandomSearch" /\
   teleprompter = BootstrapFewShotWithRandomSearch 3) ->
  let trainset := map to_dspy_example (default [] (examples config)) in
  (forall compiled,
     dspy_compile teleprompter metric (program base) trainset = Ok compiled ->
     let module := {| id := next_id w1; program := compiled |} in
     get_or_create_module self config w =
       (Ok (module,
            set_compiled_modules
              (<[key_of config := module]> (compiled_modules self)) self),
        set_next_id (S (next_id w1)) w1)) /\
  (forall e,
     dspy_compile teleprompter metric (program base) trainset = Raise e ->
     get_or_create_module self config w = (Raise e, w1)).
Proof.
  intros Hmiss Hbase Hopt Hexamples Hkind trainset.
  rewrite (RegistrySpec.get_or_create_miss _ _ _ _ Hmiss).
  rewrite (bind_ok _ _ _ _ _ Hbase). rewrite Hopt.
  assert (Hrun : forall outcome,
    dspy_compile teleprompter metric (program base) trainset = outcome ->
    _optimize_module dspy_compile self base config w1 =
      match outcome with
      | Ok compiled =>
          (Ok {| id := next_id w1; program := compiled |},
           set_next_id (S (next_id w1)) w1)
      | Raise e => (Raise e, w1)
      end).
  { intros outcome Hcompile. unfold _optimize_module. subst trainset.
    destruct (default [] (examples config)) as [|ex rest] eqn:Hex;
      [congruence|].
    destruct Hkind as [[-> ->]|[-> ->]]; cbn [String.eqb Ascii.eqb Bool.eqb];
      unfold bind, lift, new_object; rewrite Hcompile;
      now destruct outcome. }
  split.
  - intros compiled Hcompile module.
    unfold bind. now rewrite (Hrun _ Hcompile).
  - intros e Hcompile. unfold bind. now rewrite (Hrun _ Hcompile).
Qed.

End WithDSPy.
End RegistryMore.


(** ** provider.py: more on the entry point *)

Module CallApiMore.
Import Provider Stated StatedMore.

Lemma world_kept_refl (w : World) : world_kept w w.
Proof. unfold world_kept. auto. Qed.

Lemma world_kept_trans (w1 w2 w3 : World) :
  world_kept w1 w2 -> world_kept w2 w3 -> world_kept w1 w3.
Proof.
  unfold world_kept. intros (He1 & Hn1 & Hs1 & Hi1) (He2 & Hn2 & Hs2 & Hi2).
  repeat split; [congruence|congruence|congruence|lia].
Qed.

(** Steps that keep the world compose. *)
Lemma bind_kept {A B} (m : M World A) (k : A -> M World B) (w : World) :
  (forall w0, world_kept w0 (m w0).2) ->
  (forall a w0, world_kept w0 (k a w0).2) ->
  world_kept w (bind m k w).2.
Proof.
  intros Hm Hk. unfold bind. specialize (Hm w).
  destruct (m w) as [[a|e] w1]; simpl in *; [|exact Hm].
  eapply world_kept_trans; [exact Hm|apply Hk].
Qed.

Section WithDSPy.
Context {O : Type} `{PyObject O}.
Variable dspy_init_error : ModuleKind -> string -> option exn.
Variable dspy_compile :
  Optimizer -> Metric O -> Program O -> list (DspyExample O)
  -> Outcome (Program O).
Variable dspy_forward :
  option (LM * bool) -> Program O -> gmap string O -> Outcome O.

#[local] Abbreviation call_api' :=
  (call_api dspy_init_error dspy_compile dspy_forward).
#[local] Abbreviation call_api_try' :=
  (call_api_try dspy_init_error dspy_compile dspy_forward).

Lemma new_object_kept (p : Program O) (w : World) :
  world_kept w (new_object p w).2.
Proof. unfold world_kept, new_object. simpl. repeat split. lia. Qed.

Lemma dspy_new_kept (kind : ModuleKind) (sig : string) (w : World) :
  world_kept w (dspy_new (O := O) dspy_init_error kind sig w).2.
Proof.
  unfold dspy_new. destruct (dspy_init_error kind sig).
  - apply world_kept_refl.
  - apply new_object_kept.
Qed.

Lemma create_module_kept (module_type sig : string) (config : Config O)
    (w : World) :
  world_kept w (create_module dspy_init_error module_type sig config w).2.
Proof.
  unfold create_module.
  repeat match goal with
         | |- context [if ?b then _ else _] => destruct b
         end; apply dspy_new_kept.
Qed.

Lemma optimize_module_kept (self : DSPyProvider O) (module : ModuleObj O)
    (config : Config O) (w : World) :
  world_kept w (_optimize_module dspy_compile self module config w).2.
Proof.
  unfold _optimize_module.
  destruct (default [] (examples config)); [apply world_kept_refl|].
  repeat match goal with
         | |- context [if ?b then _ else _] => destruct b
         end;
    try apply world_kept_refl;
    apply bind_kept;
    try (intros; apply new_object_kept);
    intros; unfold lift; apply world_kept_refl.
Qed.

Lemma get_or_create_kept (self : DSPyProvider O) (config : Config O)
    (w : World) :
  world_kept w
    (_get_or_create_module dspy_init_error dspy_compile self config w).2.
Proof.
  unfold _get_or_create_module.
  destruct (compiled_modules self !! _); [apply world_kept_refl|].
  apply bind_kept; [intros; apply create_module_kept|].
  intros base w0. apply bind_kept.
  - intros w1. destruct (default false (optimize config));
      [apply optimize_module_kept|apply world_kept_refl].
  - intros; apply world_kept_refl.
Qed.

(** The [try] block after a provider was built. *)
Lemma after_init_kept (prompt : string) (options : Options O)
    (context : CallContext O) (provider : DSPyProvider O) (w : World) :
  world_kept w
    ((do ' (module, provider) <-
        _get_or_create_module dspy_init_error dspy_compile provider
          (default empty_config (config options));
      ret (provider, default empty_config (config options), module)) w).2.
Proof.
  apply bind_kept; [intros; apply get_or_create_kept|].
  intros [module provider'] w0. apply world_kept_refl.
Qed.

(** [call_api] never writes an environment variable and never moves the
    clock; object identities are only handed out upwards. *)
Lemma call_api_keeps_clock (prompt : string) (options : Options O)
    (context : CallContext O) (w : World) :
  let w' := (call_api' prompt options context w).2 in
  environ w' = environ w /\
  now_isoformat w' = now_isoformat w /\
  next_id w <= next_id w'.
Proof.
  intros w'. subst w'.
  destruct (__init__ (O := O) w) as [[provider|e] w1] eqn:Hinit.
  - assert (Hinit_kept :
      environ w1 = environ w /\ now_isoformat w1 = now_isoformat w /\
      next_id w <= next_id w1).
    { revert Hinit. unfold __init__.
      destruct (environ w !! "OPENAI_API_KEY") as [[|c key]|];
        [discriminate| |discriminate].
      intros [= _ <-]. simpl. auto. }
    assert (Hrest : world_kept w1 (call_api' prompt options context w).2).
    { unfold call_api, try_except, call_api_try. unfold bind at 1.
      unfold resolve. rewrite (bind_ok _ _ _ _ _ Hinit).
      pose proof (after_init_kept prompt options context provider w1) as Hres.
      destruct (bind _ _ w1)
        as [[[[provider' cfg] module]|e] w2]; simpl in Hres |- *.
      - eapply world_kept_trans; [exact Hres|].
        unfold bind, lift, ret.
        destruct (dspy_forward _ _ _); apply world_kept_refl.
      - exact Hres. }
    destruct Hinit_kept as (He & Hc & Hi).
    destruct Hrest as (He' & Hc' & _ & Hi').
    repeat split; [congruence|congruence|lia].
  - assert (Hw : w1 = w).
    { revert Hinit. unfold __init__, raise.
      destruct (environ w !! "OPENAI_API_KEY") as [[|c key]|];
        [now intros [= _ <-]|discriminate|now intros [= _ <-]]. }
    subst w1.
    rewrite (CallApiSpec.call_api_of_raise _ _ _ _ _ _ _ _ _
               (CallApiSpec.try_raises_at_init _ _ _ prompt options context
                  _ _ _ Hinit)).
    simpl. repeat split. lia.
Qed.

(** X5: with [OPENAI_API_KEY] unset or empty, [call_api] answers with the
    error envelope naming the variable and leaves the world untouched; no
    module is built and [dspy] is not asked anything. *)
Theorem missing_api_key_reported (prompt : string) (options : Options O)
    (context : CallContext O) (w : World) :
  environ w !! "OPENAI_API_KEY" = None \/
    environ w !! "OPENAI_API_KEY" = Some "" ->
  call_api' prompt options context w =
    (Ok {| output := "";
           tokenUsage := None; metadata := None; debug_info := None;
           error := Some "DSPy Provider Error: OPENAI_API_KEY environment variable is required" |},
     w).
Proof.
  intros Hkey.
  assert (Hinit : __init__ (O := O) w =
            (Raise (Exn "ValueError"
                      "OPENAI_API_KEY environment variable is required"), w)).
  { unfold __init__. destruct Hkey as [-> | ->]; reflexivity. }
  rewrite (CallApiSpec.call_api_of_raise _ _ _ _ _ _ _ _ _
             (CallApiSpec.try_raises_at_init _ _ _ prompt options context
                _ _ _ Hinit)).
  reflexivity.
Qed.

(** The statistics are empty or carry a positive total. *)
Lemma usage_stats_shape (self : DSPyProvider O) (result : O) :
  _get_usage_stats self result = ∅ \/
  exists total prompt completion,
    (0 < total)%Z /\
    _get_usage_stats self result = usage_mapping total prompt completion.
Proof.
  unfold _get_usage_stats.
  destruct (py_get_lm_usage result) as [[[|entry rest]|]|]; auto.
  destruct (fold_left add_entry (entry :: rest) (0, 0, 0)%Z)
    as [[total prompt] completion].
  destruct (0 <? total)%Z eqn:Hpos; [|auto].
  right. exists total, prompt, completion.
  split; [now apply Z.ltb_lt|reflexivity].
Qed.

(** What the [try] block returns when it returns. *)
Lemma call_api_try_success (prompt : string) (options : Options O)
    (context : CallContext O) (w w' : World) (r : Response) :
  call_api_try' prompt options context w = (Ok r, w') ->
  exists provider result,
    let config := default empty_config (config options) in
    r = {| output := _extract_output provider result config;
           tokenUsage :=
             if decide (_get_usage_stats provider result = ∅) then None
             else Some (_get_usage_stats provider result);
           metadata := Some
             {| meta_module_type := default "predict" (module_type config);
                meta_signature :=
                  default "question -> answer" (signature config);
                optimized := default false (optimize config);
                timestamp := now_isoformat w' |};
           debug_info :=
             if default false (debug config)
             then Some {| full_result := py_str result;
                          type_name := py_type_name result |}
             else None;
           error := None |}.
Proof.
  unfold call_api_try, resolve, bind, ret, lift.
  destruct (__init__ w) as [[provider|e] w1]; [|discriminate].
  destruct (_get_or_create_module _ _ provider _ w1)
    as [[[module provider']|e] w2]; [|discriminate].
  destruct (dspy_forward _ _ _) as [result|e]; [|discriminate].
  intros [= <- <-]. now exists provider', result.
Qed.

(** X6: every response of [call_api] has one of two shapes.  Either it is
    the error envelope: an error text with the fixed prefix, an empty
    output and nothing else; or it carries no error, has metadata, and its
    token usage, if present, is the three-key mapping with a total above
    zero (never an empty mapping). *)
Theorem call_api_envelope (prompt : string) (options : Options O)
    (context : CallContext O) (w : World) :
  exists r w',
    call_api' prompt options context w = (Ok r, w') /\
    (is_error_envelope r \/ is_success_envelope r).
Proof.
  unfold call_api, try_except.
  destruct (call_api_try' prompt options context w) as [[r|e] w'] eqn:Hbody.
  - exists r, w'. split; [reflexivity|]. right.
    destruct (call_api_try_success _ _ _ _ _ _ Hbody)
      as (provider & result & ->).
    unfold is_success_envelope. simpl. split; [reflexivity|].
    split; [eauto|]. intros usage.
    destruct (decide (_get_usage_stats provider result = ∅)) as [|Hne];
      [discriminate|].
    intros [= <-].
    destruct (usage_stats_shape provider result)
      as [Hempty|(total & prompt_sum & completion_sum & Hpos & Heq)];
      [contradiction|eauto].
  - exists (error_response e), w'. split; [reflexivity|]. left.
    unfold is_error_envelope. simpl. eauto 10.
Qed.

(** X7: the metadata of a successful response repeats the request, not
    what was built: [module_type] and [signature] are the descriptor's own
    (after defaults), also for an unknown kind that fell back to [Predict];
    [optimized] is the [optimize] flag, also when no optimizer ran; the
    timestamp is the clock at the call; and debug information is there
    exactly when [debug] is set. *)
Theorem success_metadata_repeats_request (prompt : string)
    (options : Options O) (context : CallContext O) (w w' : World)
    (r : Response) :
  call_api' prompt options context w = (Ok r, w') ->
  error r = None ->
  let config := default empty_config (config options) in
  metadata r = Some
    {| meta_module_type := default "predict" (module_type config);
       meta_signature := default "question -> answer" (signature config);
       optimized := default false (optimize config);
       timestamp := now_isoformat w |} /\
  (is_Some (debug_info r) <-> default false (debug config) = true).
Proof.
  intros Hrun Hok config.
  pose proof (call_api_keeps_clock prompt options context w) as Hkept.
  cbv zeta in Hkept.
  rewrite Hrun in Hkept. destruct Hkept as (_ & Hclock & _). simpl in Hclock.
  revert Hrun. unfold call_api, try_except.
  destruct (call_api_try' prompt options context w) as [[r0|e] w0] eqn:Hbody.
  - intros [= <- <-].
    destruct (call_api_try_success _ _ _ _ _ _ Hbody)
      as (provider & result & ->).
    simpl. rewrite Hclock. split; [reflexivity|].
    fold config. destruct (default false (debug config)).
    + split; [reflexivity|eauto].
    + split; [intros [x Hx]; discriminate|discriminate].
  - unfold ret. intros [= <- <-]. discriminate Hok.
Qed.

End WithDSPy.
End CallApiMore.



(** ** provider.py: more on usage statistics and the metric *)

Module HelpersMore.
Import Provider Stated StatedMore.

Lemma log_sum_app (counter : UsageData -> option Z) (log1 log2 : list LogEntry) :
  log_sum counter (log1 ++ log2)
  = (log_sum counter log1 + log_sum counter log2)%Z.
Proof.
  induction log1 as [|entry log1 IH]; simpl; [reflexivity|].
  rewrite IH. ring.
Qed.

Lemma log_sum_perm (counter : UsageData -> option Z) (log log' : list LogEntry) :
  log ≡ₚ log' -> log_sum counter log = log_sum counter log'.
Proof.
  induction 1 as [|entry l l' _ IH|a b l|l1 l2 l3 _ IH1 _ IH2]; simpl.
  - reflexivity.
  - now rewrite IH.
  - ring.
  - congruence.
Qed.

Lemma log_sum_counted (counter : UsageData -> option Z) (log : list LogEntry) :
  log_sum counter (List.filter counted log) = log_sum counter log.
Proof.
  induction log as [|entry log IH]; simpl; [reflexivity|].
  destruct entry as [|[usage_data|]]; simpl; rewrite IH; reflexivity.
Qed.

Lemma log_sum_zero (counter : UsageData -> option Z) (log : list LogEntry) :
  Forall (fun entry => entry_count counter entry = 0%Z) log ->
  log_sum counter log = 0%Z.
Proof.
  induction 1 as [|entry rest Hentry _ IH]; simpl; [reflexivity|].
  now rewrite Hentry, IH.
Qed.

Lemma length_append (a b : string) :
  String.length (a +:+ b) = String.length a + String.length b.
Proof. induction a as [|c a IH]; simpl; [reflexivity|]. rewrite IH. lia. Qed.

Lemma lower_length (s : string) :
  String.length (PyStr.lower s) = String.length s.
Proof. induction s; simpl; congruence. Qed.

Lemma contains_length (needle hay : string) :
  PyStr.contains needle hay = true ->
  String.length needle <= String.length hay.
Proof.
  intros Hc. apply PyStrFacts.contains_iff in Hc as (before & after & ->).
  rewrite !length_append. lia.
Qed.

Lemma append_empty_r (s : string) : s +:+ "" = s.
Proof.
  induction s as [|c s IH]; [reflexivity|].
  change (String c (s +:+ "") = String c s). now rewrite IH.
Qed.

Lemma contains_refl (s : string) : PyStr.contains s s = true.
Proof.
  apply PyStrFacts.contains_iff. exists "", "". simpl.
  now rewrite append_empty_r.
Qed.

Lemma contains_empty (hay : string) : PyStr.contains "" hay = true.
Proof. apply PyStrFacts.contains_iff. now exists "", hay. Qed.

Section WithObjects.
Context {O : Type} `{PyObject O}.

(** X8: the order of the usage log does not matter: two results whose logs
    are rearrangements of one another give the same statistics. *)
Theorem usage_stats_order_free (self : DSPyProvider O) (result result' : O)
    (log log' : list LogEntry) :
  log ≡ₚ log' ->
  py_get_lm_usage result = Some (Some log) ->
  py_get_lm_usage result' = Some (Some log') ->
  _get_usage_stats self result = _get_usage_stats self result'.
Proof.
  intros Hperm Hlog Hlog'.
  rewrite (HelpersSpec.get_usage_stats_log _ _ _ Hlog).
  rewrite (HelpersSpec.get_usage_stats_log _ _ _ Hlog').
  now rewrite !(log_sum_perm _ _ _ Hperm).
Qed.

(** X9: entries that are no mapping, and mappings without a ["usage"] key,
    change nothing: dropping them from the log gives the same statistics.
    And a log in which no entry reports [total_tokens] gives the empty
    mapping, whatever prompt and completion counts it holds. *)
Theorem usage_stats_skip_uncounted (self : DSPyProvider O)
    (result result' : O) (log : list LogEntry) :
  py_get_lm_usage result = Some (Some log) ->
  (py_get_lm_usage result' = Some (Some (List.filter counted log)) ->
     _get_usage_stats self result' = _get_usage_stats self result) /\
  (Forall (fun entry => entry_count total_tokens entry = 0%Z) log ->
     _get_usage_stats self result = ∅).
Proof.
  intros Hlog. split.
  - intros Hlog'.
    rewrite (HelpersSpec.get_usage_stats_log _ _ _ Hlog).
    rewrite (HelpersSpec.get_usage_stats_log _ _ _ Hlog').
    now rewrite !log_sum_counted.
  - intros Hzero. rewrite (HelpersSpec.get_usage_stats_log _ _ _ Hlog).
    now rewrite (log_sum_zero _ _ Hzero).
Qed.

(** X10: the provider's metric on two textual answers.  An empty expected
    answer is always accepted; answers equal up to the case of their ASCII
    letters are accepted; on ASCII text a produced answer shorter than the
    expected one is always rejected; and an answer that is not text makes
    the metric raise [AttributeError]. *)
Theorem metric_edge_cases (gold : DspyExample O) (pred expected produced : O) :
  store gold !! "answer" = Some expected ->
  py_getattr pred "answer" = Some produced ->
  (forall p, py_as_str expected = Some "" -> py_as_str produced = Some p ->
     metric gold pred = Ok true) /\
  (forall e p, py_as_str expected = Some e -> py_as_str produced = Some p ->
     PyStr.lower e = PyStr.lower p -> metric gold pred = Ok true) /\
  (forall e p, py_as_str expected = Some e -> py_as_str produced = Some p ->
     is_ascii e = true -> is_ascii p = true ->
     String.length p < String.length e -> metric gold pred = Ok false) /\
  (py_as_str expected = None \/ py_as_str produced = None ->
     exists e, metric gold pred = Raise e /\ exn_class e = "AttributeError").
Proof.
  intros Hgold Hpred. unfold metric. rewrite Hgold, Hpred.
  split; [|split; [|split]].
  - intros p -> ->. simpl. now rewrite contains_empty.
  - intros e p -> -> ->. now rewrite contains_refl.
  - intros e p -> -> _ _ Hshort.
    destruct (PyStr.contains (PyStr.lower e) (PyStr.lower p)) eqn:Hc;
      [|reflexivity].
    apply contains_length in Hc. rewrite !lower_length in Hc. lia.
  - intros [-> | ->].
    + eexists. split; reflexivity.
    + destruct (py_as_str expected); eexists; split; reflexivity.
Qed.

End WithObjects.
End HelpersMore.


(** ** Percent-encoding: facts *)

Module PyUrlFacts.
Import PyUrl StatedMore.

Lemma percent_encoded (c : ascii) : string_forall encoded_char (percent c) = true.
Proof. destruct c as [[] [] [] [] [] [] [] []]; reflexivity. Qed.

Lemma string_forall_app (p : ascii -> bool) (a b : string) :
  string_forall p (a +:+ b) = string_forall p a && string_forall p b.
Proof.
  induction a as [|c a IH]; [reflexivity|].
  change (p c && string_forall p (a +:+ b)
          = p c && string_forall p a && string_forall p b).
  rewrite IH. now destruct (p c).
Qed.

Lemma quote_encoded (s : string) : string_forall encoded_char (quote s) = true.
Proof.
  induction s as [|c s IH]; [reflexivity|].
  change (string_forall encoded_char
            ((if always_safe c then String c EmptyString else percent c)
               +:+ quote s) = true).
  rewrite string_forall_app, IH, andb_true_r.
  destruct (always_safe c) eqn:Hsafe; [|apply percent_encoded].
  simpl. unfold encoded_char. now rewrite Hsafe.
Qed.

Lemma unquote_percent (c : ascii) (rest : string) :
  always_safe c = false ->
  unquote (percent c +:+ rest) = option_map (String c) (unquote rest).
Proof.
  destruct c as [[] [] [] [] [] [] [] []]; intros Hsafe;
    first [discriminate Hsafe | reflexivity].
Qed.

Lemma unquote_safe (c : ascii) (rest : string) :
  always_safe c = true ->
  unquote (String c rest) = option_map (String c) (unquote rest).
Proof.
  intros Hsafe. simpl.
  destruct (Ascii.eqb_spec c "%") as [->|_]; [discriminate Hsafe|reflexivity].
Qed.

(** Decoding undoes encoding. *)
Lemma unquote_quote (s : string) : unquote (quote s) = Some s.
Proof.
  induction s as [|c s IH]; [reflexivity|].
  change (unquote ((if always_safe c then String c EmptyString
                    else percent c) +:+ quote s) = Some (String c s)).
  destruct (always_safe c) eqn:Hsafe.
  - change (unquote (String c (quote s)) = Some (String c s)).
    rewrite (unquote_safe _ _ Hsafe), IH. reflexivity.
  - rewrite (unquote_percent _ _ Hsafe), IH. reflexivity.
Qed.

Lemma quote_injective (s t : string) : quote s = quote t -> s = t.
Proof.
  intros Heq. apply (f_equal unquote) in Heq.
  rewrite !unquote_quote in Heq. congruence.
Qed.

End PyUrlFacts.



(** ** auth.py: the other methods and the success paths *)

Module AuthMore.
Import Auth Stated StatedMore.

Lemma export_token_run {C K} (self : PromptfooAuth C K) (token : string)
    (env : Env) :
  export_token self token env =
    (Ok tt,
     {| environ := exported (base_url self) (app_url self) token (environ env);
        stdout := stdout env |}).
Proof. reflexivity. Qed.

Section WithCakeAuth.
Variables CakeAuthConfig CakeAuthClient : Type.
Variable from_env : gmap string string -> Outcome CakeAuthConfig.
Variable new_client : CakeAuthConfig -> Outcome CakeAuthClient.
Variable get_recommended_auth_method : CakeAuthConfig -> Outcome string.
Variable get_token : CakeAuthClient -> Outcome (option string).

#[local] Abbreviation new_auth := (__init__ from_env new_client).
#[local] Abbreviation configure :=
  (configure_promptfoo_env get_recommended_auth_method get_token).
#[local] Abbreviation auth_headers := (get_auth_headers get_token).

(** X11: the constructor never raises and never touches the environment.
    Either the configuration and the client were both built, and the object
    holds them and is marked available with nothing printed; or one of the
    two raised, and the object holds neither, is marked unavailable and one
    warning with the error text was printed.  The two URLs are the
    environment's, or the fixed default. *)
Theorem init_never_raises (env : Env) :
  exists self env',
    new_auth env = (Ok self, env') /\
    environ env' = environ env /\
    base_url self = default "https://promptfoo.dev.aws.kflow.ai"
                      (environ env !! "PROMPTFOO_REMOTE_API_BASE_URL") /\
    app_url self = default "https://promptfoo.dev.aws.kflow.ai"
                     (environ env !! "PROMPTFOO_REMOTE_APP_BASE_URL") /\
    ((exists cfg cl,
        from_env (environ env) = Ok cfg /\ new_client cfg = Ok cl /\
        auth_available self = true /\
        config self = Some cfg /\ client self = Some cl /\
        stdout env' = stdout env) \/
     (exists e,
        (from_env (environ env) = Raise e \/
         exists cfg, from_env (environ env) = Ok cfg /\
                     new_client cfg = Raise e) /\
        auth_available self = false /\
        config self = None /\ client self = None /\
        stdout env' =
          (stdout env
             ++ ["⚠️  Could not initialize Cake auth: " +:+ exn_str e])%list)).
Proof.
  unfold __init__, bind, getenv_default, try_except, lift, ret, print.
  destruct (from_env (environ env)) as [cfg|e] eqn:Hcfg.
  - destruct (new_client cfg) as [cl|e] eqn:Hcl.
    + do 2 eexists. repeat (split; [reflexivity|]). simpl.
      left. exists cfg, cl. repeat split; auto.
    + do 2 eexists. repeat (split; [reflexivity|]). simpl.
      right. exists e. repeat split; eauto.
  - do 2 eexists. repeat (split; [reflexivity|]). simpl.
    right. exists e. repeat split; auto.
Qed.

(** X12: [configure_promptfoo_env] never raises, for any object and any
    behaviour of the auth system, and it writes environment variables only
    when it answers [True]: then the four Promptfoo variables hold a
    non-empty token and the object's URLs; with any other answer the
    environment is as before. *)
Theorem configure_writes_only_on_success
    (self : PromptfooAuth CakeAuthConfig CakeAuthClient) (env : Env) :
  exists result env',
    configure self env = (Ok result, env') /\
    (result = PyBool true ->
       exists token, token <> "" /\
         environ env' = exported (base_url self) (app_url self) token
                          (environ env)) /\
    (result <> PyBool true -> environ env' = environ env).
Proof.
  assert (Hhandler : forall e env0,
    environ env0 = environ env ->
    exists env',
      (run print ("⚠️  Authentication setup failed: " +:+ exn_str e);
       run (if PyStr.contains "browser" (PyStr.lower (exn_str e))
            then print_all browser_lines
            else ret tt);
       ret (PyBool false)) env0 = (Ok (PyBool false), env') /\
      environ env' = environ env).
  { intros e env0 Henv. eexists. split.
    - apply AuthSpec.handler_printed.
    - exact Henv. }
  assert (Hcases :
    no_manual_token env \/
    exists c t, environ env !! "CAKE_JWT_TOKEN" = Some (String c t)).
  { unfold no_manual_token.
    destruct (environ env !! "CAKE_JWT_TOKEN") as [[|c t]|]; eauto. }
  destruct Hcases as [Hno|(c & t & Hmanual)].
  2:{ unfold configure_promptfoo_env. unfold bind at 1. unfold getenv.
      rewrite Hmanual.
      do 2 eexists. split; [reflexivity|]. split.
      - intros _. exists (String c t). split; [discriminate|reflexivity].
      - congruence. }
  rewrite (AuthSpec.configure_without_manual_token _ _ _ _ self env Hno).
  destruct (auth_available self).
  2:{ do 2 eexists. split; [reflexivity|]. split; [discriminate|].
      reflexivity. }
  cbn [negb]. unfold try_except.
  destruct (config self) as [cfg|].
  2:{ unfold bind at 1, method_of, raise.
      destruct (Hhandler (Exn "AttributeError"
                 ("'NoneType' object has no attribute '"
                    +:+ "get_recommended_auth_method" +:+ "'")) env
                 eq_refl) as (env' & -> & Henv).
      do 2 eexists. split; [reflexivity|].
      split; [discriminate|auto]. }
  rewrite (AuthSpec.bind_method_of _ _ cfg _ _ _ eq_refl).
  destruct (get_recommended_auth_method cfg) as [method|e].
  2:{ destruct (Hhandler e env eq_refl) as (env' & -> & Henv).
      do 2 eexists. split; [reflexivity|].
      split; [discriminate|auto]. }
  rewrite AuthSpec.bind_print.
  destruct (client self) as [cl|].
  2:{ unfold bind at 1, method_of, raise.
      destruct (Hhandler (Exn "AttributeError"
                 ("'NoneType' object has no attribute '"
                    +:+ "get_token" +:+ "'"))
                 (printed ["Using auth method: " +:+ method] env)
                 eq_refl) as (env' & -> & Henv).
      do 2 eexists. split; [reflexivity|].
      split; [discriminate|auto]. }
  rewrite (AuthSpec.bind_method_of _ _ cl _ _ _ eq_refl).
  destruct (get_token cl) as [[[|c t]|]|e].
  - do 2 eexists. split; [reflexivity|]. split; [discriminate|].
    reflexivity.
  - do 2 eexists. split; [reflexivity|]. split.
    + intros _. exists (String c t). split; [discriminate|reflexivity].
    + congruence.
  - do 2 eexists. split; [reflexivity|]. split; [discriminate|].
    reflexivity.
  - destruct (Hhandler e
                (printed ["Using auth method: " +:+ method] env)
                eq_refl) as (env' & -> & Henv).
    do 2 eexists. split; [reflexivity|].
    split; [discriminate|auto].
Qed.

(** X13: a non-empty [CAKE_JWT_TOKEN] wins over the auth system: whatever
    the object and whatever the auth system would do, the answer is [True],
    two lines are printed, and afterwards the four Promptfoo variables read
    back the token, the bearer header and the object's two URLs, while
    every other variable is as before. *)
Theorem manual_token_takes_precedence
    (self : PromptfooAuth CakeAuthConfig CakeAuthClient) (env : Env)
    (token : string) :
  environ env !! "CAKE_JWT_TOKEN" = Some token -> token <> "" ->
  exists env',
    configure self env = (Ok (PyBool true), env') /\
    stdout env' =
      (stdout env ++ ["🔑 Using manual JWT token";
                      "✓ Authentication configured for " +:+ base_url self])%list /\
    environ env' !! "PROMPTFOO_AUTH_TOKEN" = Some token /\
    environ env' !! "PROMPTFOO_API_HEADERS"
      = Some ("Authorization: Bearer " +:+ token) /\
    environ env' !! "PROMPTFOO_SHARE_API_BASE_URL" = Some (base_url self) /\
    environ env' !! "PROMPTFOO_SHARE_APP_BASE_URL" = Some (app_url self) /\
    (forall key,
       ~ In key ["PROMPTFOO_AUTH_TOKEN"; "PROMPTFOO_API_HEADERS";
                 "PROMPTFOO_SHARE_API_BASE_URL";
                 "PROMPTFOO_SHARE_APP_BASE_URL"] ->
       environ env' !! key = environ env !! key).
Proof.
  intros Hmanual Hne. destruct token as [|c t]; [congruence|].
  unfold configure_promptfoo_env. unfold bind at 1. unfold getenv.
  rewrite Hmanual. eexists. split; [reflexivity|].
  cbn [environ stdout printed]. unfold exported.
  split; [now rewrite <- app_assoc|].
  split; [now rewrite !lookup_insert_ne, lookup_insert_eq by discriminate|].
  split; [now rewrite lookup_insert_eq|].
  split; [now rewrite !lookup_insert_ne, lookup_insert_eq by discriminate|].
  split; [now rewrite lookup_insert_ne, lookup_insert_eq by discriminate|].
  intros key Hkey. simpl in Hkey.
  rewrite !lookup_insert_ne; [reflexivity|..]; intros <-; tauto.
Qed.

(** X14: [get_auth_headers] has no guard of its own.  Without a client the
    call raises [AttributeError]; an exception of [get_token] comes out as
    it is; a token that is [None] gives the header "Bearer None"; otherwise
    the headers are exactly [Authorization], the bearer token, and
    [Content-Type].  In particular an object built while the auth system
    could not be configured raises on this call. *)
Theorem auth_headers_unguarded
    (self : PromptfooAuth CakeAuthConfig CakeAuthClient) (env : Env) :
  (client self = None ->
     exists e, auth_headers self env = (Raise e, env) /\
               exn_class e = "AttributeError") /\
  (forall cl e, client self = Some cl -> get_token cl = Raise e ->
     auth_headers self env = (Raise e, env)) /\
  (forall cl token, client self = Some cl -> get_token cl = Ok token ->
     exists headers,
       auth_headers self env = (Ok headers, env) /\
       headers !! "Authorization"
         = Some ("Bearer " +:+ default "None" token) /\
       headers !! "Content-Type" = Some "application/json" /\
       forall key, key <> "Authorization" -> key <> "Content-Type" ->
                   headers !! key = None) /\
  (forall e0, from_env (environ env) = Raise e0 ->
     exists self0 env0 e,
       new_auth env = (Ok self0, env0) /\
       auth_headers self0 env0 = (Raise e, env0) /\
       exn_class e = "AttributeError").
Proof.
  split; [|split; [|split]].
  - intros Hcl. unfold get_auth_headers, bind, method_of, raise.
    rewrite Hcl. eexists. split; reflexivity.
  - intros cl e Hcl Htoken. unfold get_auth_headers.
    now rewrite (AuthSpec.bind_method_of _ _ cl _ _ _ Hcl), Htoken.
  - intros cl token Hcl Htoken. unfold get_auth_headers.
    rewrite (AuthSpec.bind_method_of _ _ cl _ _ _ Hcl), Htoken.
    eexists. split; [reflexivity|]. unfold format_token.
    split; [apply lookup_insert_eq|].
    split; [now rewrite lookup_insert_ne, lookup_insert_eq by discriminate|].
    intros key Hk1 Hk2.
    now rewrite !lookup_insert_ne, lookup_empty by congruence.
  - intros e0 Hcfg.
    unfold __init__, bind, getenv_default, try_except, lift, ret, print.
    rewrite Hcfg. do 3 eexists. split; [reflexivity|].
    unfold get_auth_headers, bind, method_of, raise. simpl.
    split; reflexivity.
Qed.

(** X15: the authenticated URL is the OAuth prefix for the cluster followed
    by the percent-encoded target.  The encoded part consists of letters,
    digits, [_.-~] and percent signs only, so no character of the target can
    end or split the [rd] parameter; decoding gives the target back; and two
    targets give the same URL only if they are the same. *)
Theorem authenticated_url_encodes_target
    (self : PromptfooAuth CakeAuthConfig CakeAuthClient) (env : Env)
    (target_url : string) :
  let cluster_base :=
    default "dev.aws.kflow.ai" (environ env !! "CLUSTER_BASE_NAME") in
  get_authenticated_url self target_url env =
    (Ok ("https://oauth." +:+ cluster_base +:+ "/auth?rd="
           +:+ PyUrl.quote target_url), env) /\
  string_forall encoded_char (PyUrl.quote target_url) = true /\
  unquote (PyUrl.quote target_url) = Some target_url /\
  (forall other,
     get_authenticated_url self other env
       = get_authenticated_url self target_url env ->
     other = target_url).
Proof.
  intros cluster_base.
  split; [reflexivity|].
  split; [apply PyUrlFacts.quote_encoded|].
  split; [apply PyUrlFacts.unquote_quote|].
  intros other. unfold get_authenticated_url, bind, getenv_default, ret.
  intros [= Heq]. apply PyUrlFacts.quote_injective.
  repeat apply RegistryMore.append_cancel in Heq. exact Heq.
Qed.

End WithCakeAuth.
End AuthMore.


(** ** modules.py *)

Module ModulesSpec.
Import Provider Modules Stated StatedMore.

Section WithDSPy.
Context {O : Type} `{PyObject O}.
Variable example_keys : O -> list string.
Variable example_input_keys : O -> Outcome (list string).
Variable retrieve_passages : nat -> O -> Outcome (list string).
Variable call_module : Program O -> gmap string O -> Outcome O.

#[local] Abbreviation forward :=
  (RAGModule_forward retrieve_passages call_module).

Lemma filter_all_inputs (keys input_keys : list string) :
  (forall f, In f keys -> In f input_keys) ->
  List.filter (fun f => negb (name_in f input_keys)) keys = [].
Proof.
  intros Hall. induction keys as [|k keys IH]; [reflexivity|]. simpl.
  replace (name_in k input_keys) with true.
  - simpl. apply IH. intros f Hf. apply Hall. now right.
  - symmetry. unfold name_in. apply existsb_exists. exists k.
    split; [apply Hall; now left|apply String.eqb_refl].
Qed.

(** X16: the default metric of [optimize_module] is lenient.  It answers
    true for an example without fields (and then does not even ask for the
    inputs), for an example all of whose fields are inputs, and whenever the
    first output field is missing on the prediction.  Once the example's
    inputs are declared it never raises; if they are not, and the example
    has fields, the error of [inputs()] comes out of the metric. *)
Theorem default_metric_lenient (gold pred : O) :
  (example_keys gold = [] ->
     default_metric example_keys example_input_keys gold pred = Ok true) /\
  (forall input_keys, example_input_keys gold = Ok input_keys ->
     (exists b, default_metric example_keys example_input_keys gold pred = Ok b) /\
     ((forall f, In f (example_keys gold) -> In f input_keys) ->
        default_metric example_keys example_input_keys gold pred = Ok true) /\
     (forall field rest,
        output_fields example_keys example_input_keys gold = Ok (field :: rest) ->
        py_getattr pred field = None ->
        default_metric example_keys example_input_keys gold pred = Ok true)) /\
  (forall e, example_keys gold <> [] ->
     example_input_keys gold = Raise e ->
     default_metric example_keys example_input_keys gold pred = Raise e).
Proof.
  unfold default_metric, output_fields. split; [|split].
  - intros ->. reflexivity.
  - intros input_keys Hin. rewrite Hin. split; [|split].
    + destruct (example_keys gold) as [|k keys]; [eauto|].
      set (fields := List.filter _ (k :: keys)). clearbody fields.
      destruct fields as [|field rest]; [eauto|].
      destruct (py_getattr pred field), (py_getattr gold field); eauto.
    + intros Hall. destruct (example_keys gold) as [|k keys] eqn:Hkeys;
        [reflexivity|].
      now rewrite (filter_all_inputs _ _ Hall).
    + intros field rest Hfields Hmissing.
      destruct (example_keys gold) as [|k keys].
      * discriminate Hfields.
      * assert (Hf : List.filter (fun f => negb (name_in f input_keys))
                       (k :: keys) = field :: rest) by congruence.
        rewrite Hf. now rewrite Hmissing.
  - intros e Hkeys Hraise. rewrite Hraise.
    destruct (example_keys gold); [congruence|reflexivity].
Qed.

(** X17: on its first output field the default metric compares both ways:
    it accepts exactly when one of the two texts, lower-cased, occurs in the
    other.  So it accepts whatever the provider's own metric accepts on
    [answer], where text prints as itself. *)
Theorem default_metric_either_way (gold pred : O) (field : string)
    (rest : list string) :
  output_fields example_keys example_input_keys gold = Ok (field :: rest) ->
  (forall expected produced,
     py_getattr gold field = Some expected ->
     py_getattr pred field = Some produced ->
     exists b,
       default_metric example_keys example_input_keys gold pred = Ok b /\
       (b = true <->
        (exists before after,
           PyStr.lower (py_str produced)
           = before +:+ PyStr.lower (py_str expected) +:+ after) \/
        (exists before after,
           PyStr.lower (py_str expected)
           = before +:+ PyStr.lower (py_str produced) +:+ after))) /\
  (forall gold' : DspyExample O,
     (forall o s, py_as_str o = Some s -> py_str o = s) ->
     field = "answer" ->
     store gold' !! "answer" = py_getattr gold "answer" ->
     metric gold' pred = Ok true ->
     default_metric example_keys example_input_keys gold pred = Ok true).
Proof.
  intros Hfields. unfold default_metric. rewrite Hfields. split.
  - intros expected produced -> ->. eexists. split; [reflexivity|].
    rewrite orb_true_iff, !PyStrFacts.contains_iff. reflexivity.
  - intros gold' Htext -> Hsame. unfold metric. rewrite Hsame.
    destruct (py_getattr pred "answer") as [produced|]; [|reflexivity].
    destruct (py_getattr gold "answer") as [expected|]; [|reflexivity].
    destruct (py_as_str expected) as [e|] eqn:He; [|discriminate].
    destruct (py_as_str produced) as [p|] eqn:Hp; [|discriminate].
    intros [= Hc].
    rewrite (Htext _ _ He), (Htext _ _ Hp), Hc. reflexivity.
Qed.

(** X18: the retrieval module builds its context from the first three
    passages only, joined by line feeds: passages after the third never
    reach the answering module, however many were asked for; with no
    passage the context is empty; and an exception of the retriever comes
    out of [forward] before the answering module is called. *)
Theorem rag_context_top_three (self : RAGModule O) (question : O) :
  (forall top extra : list string,
     List.length top = 3 ->
     retrieve_passages (retrieve self) question = Ok (top ++ extra)%list ->
     forward self question =
       call_module (generate_answer self)
         (<["context" := py_of_str (join LF top)]>
            (<["question" := question]> ∅))) /\
  (forall passages : list string,
     List.length passages <= 3 ->
     retrieve_passages (retrieve self) question = Ok passages ->
     forward self question =
       call_module (generate_answer self)
         (<["context" := py_of_str (join LF passages)]>
            (<["question" := question]> ∅))) /\
  (retrieve_passages (retrieve self) question = Ok [] ->
     forward self question =
       call_module (generate_answer self)
         (<["context" := py_of_str ""]> (<["question" := question]> ∅))) /\
  (forall e,
     retrieve_passages (retrieve self) question = Raise e ->
     forward self question = Raise e).
Proof.
  unfold RAGModule_forward. split; [|split; [|split]].
  - intros top extra Hlen ->.
    now rewrite take_app_length' by (symmetry; exact Hlen).
  - intros passages Hlen ->. now rewrite take_ge by exact Hlen.
  - intros ->. reflexivity.
  - intros e ->. reflexivity.
Qed.

End WithDSPy.
End ModulesSpec.


(** ** The further statements at concrete inputs *)

Module MoreChecks.
Import Provider Stated StatedMore Fixture FixtureMore.

(** *** The registry *)

Lemma recognized_keys_injective_witness :
  In "react" recognized_kinds /\
  cache_key_of "react" "q -> a" = cache_key_of "react" "q -> a" /\
  ("react" = "react" /\ "q -> a" = "q -> a").
Proof.
  assert (Hin : In "react" recognized_kinds) by (simpl; tauto).
  split; [exact Hin|]. split; [reflexivity|].
  exact (RegistryMore.recognized_keys_injective "react" "react" "q -> a"
           "q -> a" Hin Hin eq_refl).
Defined.

Lemma cache_only_grows_witness :
  let cfg : Config Obj := config_with None None in
  let m : ModuleObj Obj :=
    {| id := 0; program := Built Predict "question -> answer" |} in
  let self' :=
    set_compiled_modules (<["predict_question -> answer" := m]> ∅) provider0 in
  _get_or_create_module accept_all compile_demos provider0 cfg world0
    = (Ok (m, self'), set_next_id 1 world0) /\
  compiled_modules self'
    = <["predict_question -> answer" := m]> (compiled_modules provider0).
Proof.
  intros cfg m self'.
  assert (Hrun :
    _get_or_create_module accept_all compile_demos provider0 cfg world0
      = (Ok (m, self'), set_next_id 1 world0)) by reflexivity.
  split; [exact Hrun|].
  exact (proj1 (proj2 (proj2
           (RegistryMore.cache_only_grows accept_all compile_demos provider0
              self' cfg m world0 (set_next_id 1 world0) Hrun)) eq_refl)).
Defined.

Lemma optimized_module_is_cached_witness :
  let base : ModuleObj Obj :=
    {| id := 0; program := Built ChainOfThought "question -> answer" |} in
  let trainset : list (DspyExample Obj) :=
    [{| store := {["question" := Str "2+2?"]}; input_keys := ["question"] |}] in
  let m : ModuleObj Obj :=
    {| id := 1;
       program := Compiled BootstrapFewShot (program base) trainset |} in
  _get_or_create_module accept_all compile_demos provider0 optimizing_config
    world0 =
    (Ok (m, set_compiled_modules
              (<["chain_of_thought_question -> answer" := m]> ∅) provider0),
     set_next_id 2 world0).
Proof.
  intros base trainset m.
  exact (proj1 (RegistryMore.optimized_module_is_cached accept_all
                  compile_demos provider0 optimizing_config base world0
                  (set_next_id 1 world0) BootstrapFewShot
                  eq_refl eq_refl eq_refl
                  ltac:(discriminate)
                  (or_introl (conj eq_refl eq_refl)))
           (Compiled BootstrapFewShot (program base) trainset) eq_refl).
Defined.

(** *** The entry point *)

Lemma missing_api_key_reported_witness :
  environ world_without_key !! "OPENAI_API_KEY" = None /\
  call_api accept_all compile_demos answer_paris "What?" options0
    {| vars := None |} world_without_key =
    (Ok {| output := "";
           tokenUsage := None; metadata := None; debug_info := None;
           error := Some "DSPy Provider Error: OPENAI_API_KEY environment variable is required" |},
     world_without_key).
Proof.
  assert (Hkey : environ world_without_key !! "OPENAI_API_KEY" = None)
    by reflexivity.
  split; [exact Hkey|].
  exact (CallApiMore.missing_api_key_reported accept_all compile_demos
           answer_paris "What?" options0 {| vars := None |}
           world_without_key (or_introl Hkey)).
Defined.

Lemma call_api_envelope_witness :
  exists r w',
    call_api accept_all compile_demos forward_fails "What?" options0
      {| vars := None |} world0 = (Ok r, w') /\
    (is_error_envelope r \/ is_success_envelope r).
Proof.
  exact (CallApiMore.call_api_envelope accept_all compile_demos
           forward_fails "What?" options0 {| vars := None |} world0).
Defined.

(** An unknown kind with the optimize flag set and no examples: a plain
    [Predict] answers, and the metadata repeat the request. *)
Lemma success_metadata_repeats_request_witness :
  let options : Options Obj :=
    {| config := Some
         {| module_type := Some "unknown_kind"; signature := None;
            tools := None; optimize := Some true; optimizer := None;
            examples := None; output_field := None; debug := None |} |} in
  exists r w',
    call_api accept_all compile_demos answer_paris "What?" options
      {| vars := None |} world0 = (Ok r, w') /\
    error r = None /\
    metadata r = Some
      {| meta_module_type := "unknown_kind";
         meta_signature := "question -> answer";
         optimized := true;
         timestamp := "2024-01-01T00:00:00" |}.
Proof.
  intros options.
  eassert (Hrun :
    call_api accept_all compile_demos answer_paris "What?" options
      {| vars := None |} world0 = (Ok _, _)) by (vm_compute; reflexivity).
  do 2 eexists. split; [exact Hrun|]. split; [reflexivity|].
  exact (proj1 (CallApiMore.success_metadata_repeats_request accept_all
                  compile_demos answer_paris "What?" options
                  {| vars := None |} world0 _ _ Hrun eq_refl)).
Defined.

(** *** Usage statistics and the metric *)

Lemma usage_stats_order_free_witness :
  let a := DictEntry (Some {| total_tokens := Some 10%Z;
                              prompt_tokens := Some 7%Z;
                              completion_tokens := Some 3%Z |}) in
  let b := DictEntry (Some {| total_tokens := Some 15%Z;
                              prompt_tokens := None;
                              completion_tokens := Some 6%Z |}) in
  [a; b] ≡ₚ [b; a] /\
  _get_usage_stats provider0 (Prediction [] (Some [a; b]))
  = _get_usage_stats provider0 (Prediction [] (Some [b; a])).
Proof.
  intros a b.
  assert (Hperm : [a; b] ≡ₚ [b; a]) by apply perm_swap.
  split; [exact Hperm|].
  exact (HelpersMore.usage_stats_order_free provider0
           (Prediction [] (Some [a; b])) (Prediction [] (Some [b; a]))
           [a; b] [b; a] Hperm eq_refl eq_refl).
Defined.

Lemma usage_stats_skip_uncounted_witness :
  let a := DictEntry (Some {| total_tokens := Some 10%Z;
                              prompt_tokens := Some 7%Z;
                              completion_tokens := Some 3%Z |}) in
  _get_usage_stats provider0 (Prediction [] (Some [a]))
  = _get_usage_stats provider0
      (Prediction [] (Some [NotADict; DictEntry None; a])).
Proof.
  intros a.
  exact (proj1 (HelpersMore.usage_stats_skip_uncounted provider0
                  (Prediction [] (Some [NotADict; DictEntry None; a]))
                  (Prediction [] (Some [a]))
                  [NotADict; DictEntry None; a] eq_refl) eq_refl).
Defined.

Lemma metric_edge_cases_witness :
  let shouting : Obj := Prediction [("answer", Str "PARIS")] None in
  store gold_answer !! "answer" = Some (Str "Paris") /\
  metric gold_answer shouting = Ok true.
Proof.
  intros shouting.
  assert (Hgold : store gold_answer !! "answer" = Some (Str "Paris"))
    by reflexivity.
  split; [exact Hgold|].
  exact (proj1 (proj2 (HelpersMore.metric_edge_cases gold_answer shouting
                         (Str "Paris") (Str "PARIS") Hgold eq_refl))
           "Paris" "PARIS" eq_refl eq_refl eq_refl).
Defined.

(** *** The auth helper *)

Lemma init_never_raises_witness :
  exists self env',
    Auth.__init__ from_env_fails client_ok env0 = (Ok self, env') /\
    Auth.auth_available self = false /\
    Auth.stdout env' = ["⚠️  Could not initialize Cake auth: no credentials"].
Proof.
  destruct (AuthMore.init_never_raises unit unit from_env_fails client_ok env0)
    as (self & env' & Hrun & _).
  exists self, env'. split; [exact Hrun|].
  revert Hrun. vm_compute. intros [= <- <-]. split; reflexivity.
Defined.

Lemma configure_writes_only_on_success_witness :
  exists result env',
    Auth.configure_promptfoo_env method_password token_none (auth_of true)
      env0 = (Ok result, env') /\
    (result <> Auth.PyBool true -> Auth.environ env' = Auth.environ env0).
Proof.
  destruct (AuthMore.configure_writes_only_on_success unit unit
              method_password token_none (auth_of true) env0)
    as (result & env' & Hrun & _ & Hkeep).
  exists result, env'. split; [exact Hrun|exact Hkeep].
Defined.

Lemma manual_token_takes_precedence_witness :
  Auth.environ env_manual !! "CAKE_JWT_TOKEN" = Some "jwt-123" /\
  exists env',
    Auth.configure_promptfoo_env method_password (token_raises "down")
      (auth_of false) env_manual = (Ok (Auth.PyBool true), env') /\
    Auth.environ env' !! "PROMPTFOO_API_HEADERS"
      = Some "Authorization: Bearer jwt-123".
Proof.
  assert (Hmanual :
    Auth.environ env_manual !! "CAKE_JWT_TOKEN" = Some "jwt-123")
    by reflexivity.
  split; [exact Hmanual|].
  destruct (AuthMore.manual_token_takes_precedence unit unit method_password
              (token_raises "down") (auth_of false) env_manual "jwt-123"
              Hmanual ltac:(discriminate))
    as (env' & Hrun & _ & _ & Hheaders & _).
  exists env'. split; [exact Hrun|exact Hheaders].
Defined.

Lemma auth_headers_unguarded_witness :
  exists e,
    Auth.get_auth_headers token_none (auth_of false) env0 = (Raise e, env0) /\
    exn_class e = "AttributeError".
Proof.
  exact (proj1 (AuthMore.auth_headers_unguarded unit unit from_env_fails
                  client_ok token_none (auth_of false) env0) eq_refl).
Defined.

Lemma authenticated_url_encodes_target_witness :
  Auth.get_authenticated_url (auth_of true)
    "https://promptfoo.dev/eval?id=1&x=a b" env0 =
  (Ok "https://oauth.dev.aws.kflow.ai/auth?rd=https%3A%2F%2Fpromptfoo.dev%2Feval%3Fid%3D1%26x%3Da%20b",
   env0).
Proof.
  exact (proj1 (AuthMore.authenticated_url_encodes_target unit unit
                  (auth_of true) env0
                  "https://promptfoo.dev/eval?id=1&x=a b")).
Defined.

(** *** modules.py *)

Lemma default_metric_lenient_witness :
  Modules.default_metric keys_of inputs_question (Plain "Example" "Example()")
    pred_short = Ok true.
Proof.
  exact (proj1 (ModulesSpec.default_metric_lenient keys_of inputs_question
                  (Plain "Example" "Example()") pred_short) eq_refl).
Defined.

(** The produced answer is a fragment of the expected one: accepted here,
    while the provider's metric rejects it. *)
Lemma default_metric_either_way_witness :
  Modules.output_fields keys_of inputs_question gold_long = Ok ["answer"] /\
  Modules.default_metric keys_of inputs_question gold_long pred_short
    = Ok true.
Proof.
  assert (Hfields :
    Modules.output_fields keys_of inputs_question gold_long = Ok ["answer"])
    by reflexivity.
  split; [exact Hfields|].
  assert (Hgold : py_getattr gold_long "answer" = Some (Str "Paris, France"))
    by reflexivity.
  assert (Hpred : py_getattr pred_short "answer" = Some (Str "paris"))
    by reflexivity.
  destruct (proj1 (ModulesSpec.default_metric_either_way keys_of
                     inputs_question gold_long pred_short "answer" []
                     Hfields)
              (Str "Paris, France") (Str "paris") Hgold Hpred)
    as (b & Hb & Hiff).
  rewrite Hb. f_equal. apply Hiff. right. exists "", ", france". reflexivity.
Defined.

Lemma rag_context_top_three_witness :
  Modules.RAGModule_forward five_passages echo_context
    (Modules.RAGModule__init__ (Some 5)) (Str "Why?")
  = Ok (Str ("p1" +:+ Modules.LF +:+ "p2" +:+ Modules.LF +:+ "p3")).
Proof.
  exact (proj1 (ModulesSpec.rag_context_top_three five_passages echo_context
                  (Modules.RAGModule__init__ (Some 5)) (Str "Why?"))
           ["p1"; "p2"; "p3"] ["p4"; "p5"] eq_refl eq_refl).
Defined.

End MoreChecks.
